(** * SusOps tray application: command runner, state controller, validators

    A shallow embedding of the parts of [susops_tray.py] that run external
    commands, classify their exit codes, apply process states to the tray
    menu, resolve icons, read and write the configuration and validate
    ports, together with the properties stated about them.

    Conventions of the embedding:
    - a Python [str] is a list of Unicode code points ([pystr]);
    - a Python [int] is a [Z];
    - a Python call that may raise returns a [Res];
    - everything the interpreter and the operating system decide (child
      processes, the file system, the pixbuf library) is an oracle of the
      [Host] record, indexed by a clock that advances with every call. *)

From Stdlib Require Import ZArith NArith List String Ascii Bool Lia.
From stdpp Require Import base option list gmap.

Local Open Scope Z_scope.

(* ===================================================================== *)
(** * Python values *)
(* ===================================================================== *)

Module Py.

(** A [str]: the sequence of its code points. *)
Abbreviation pystr := (list N).

(** An ASCII literal of the source, as a [str]. *)
Definition u (s : string) : pystr := map N_of_ascii (list_ascii_of_string s).
Arguments u : simpl never.

(** ** Exceptions

    Every class listed derives from [Exception]; [str(exc)] is [exn_str].
    The text of an exception that the interpreter builds itself
    ([ValueError] of [int], [KeyError], [CalledProcessError]) is
    abbreviated; nothing below depends on it. *)
Inductive exn_class :=
| TimeoutExpired
| CalledProcessError
| FileNotFoundError
| PermissionError
| FileExistsError
| OSError
| ValueError
| KeyError
| GError
| OtherException.

Record exn := mk_exn { exn_cls : exn_class; exn_str : pystr }.

Inductive Res (A : Type) :=
| Ok (a : A)
| Raise (e : exn).
Arguments Ok {A} a.
Arguments Raise {A} e.

Definition is_ok {A} (r : Res A) : bool :=
  match r with Ok _ => true | Raise _ => false end.

Definition exn_class_eqb (a b : exn_class) : bool :=
  match a, b with
  | TimeoutExpired, TimeoutExpired | CalledProcessError, CalledProcessError
  | FileNotFoundError, FileNotFoundError | PermissionError, PermissionError
  | FileExistsError, FileExistsError | OSError, OSError
  | ValueError, ValueError | KeyError, KeyError | GError, GError
  | OtherException, OtherException => true
  | _, _ => false
  end.

(** ** [str] methods that do not depend on the character database *)

(** Truthiness of a [str]: the empty string is false. *)
Definition truthy (s : pystr) : bool :=
  match s with [] => false | _ :: _ => true end.

(** [a or b] on strings. *)
Definition str_or (a b : pystr) : pystr := if truthy a then a else b.

Definition str_eqb (a b : pystr) : bool := bool_decide (a = b).

(** [str.isspace] of one character: the code points CPython treats as
    whitespace in [strip] and [split]. *)
Definition isspace_cp (c : N) : bool :=
  ((9 <=? c) && (c <=? 13) || (28 <=? c) && (c <=? 32)
   || (c =? 133) || (c =? 160) || (c =? 5760)
   || (8192 <=? c) && (c <=? 8202)
   || (c =? 8232) || (c =? 8233) || (c =? 8239) || (c =? 8287)
   || (c =? 12288))%N.

Fixpoint lstrip (s : pystr) : pystr :=
  match s with
  | [] => []
  | c :: s' => if isspace_cp c then lstrip s' else s
  end.

Definition rstrip (s : pystr) : pystr := rev (lstrip (rev s)).

(** [s.strip()] *)
Definition strip (s : pystr) : pystr := rstrip (lstrip s).

(** [s.split()]: the maximal runs of non-whitespace characters. *)
Fixpoint split_aux (cur : pystr) (s : pystr) : list pystr :=
  match s with
  | [] => match cur with [] => [] | _ => [rev cur] end
  | c :: s' =>
      if isspace_cp c
      then match cur with [] => split_aux [] s' | _ => rev cur :: split_aux [] s' end
      else split_aux (c :: cur) s'
  end.

Definition split (s : pystr) : list pystr := split_aux [] s.

Fixpoint startswith (p s : pystr) : bool :=
  match p, s with
  | [], _ => true
  | _ :: _, [] => false
  | a :: p', b :: s' => (a =? b)%N && startswith p' s'
  end.

Definition endswith (p s : pystr) : bool := startswith (rev p) (rev s).

(** [needle in hay] *)
Fixpoint str_in (needle hay : pystr) : bool :=
  startswith needle hay ||
  match hay with
  | [] => false
  | _ :: hay' => str_in needle hay'
  end.

(** ** The character database

    [str.isdigit], [int], [str.lower] and [str.upper] are answered by the
    interpreter's Unicode tables, which are not part of the program.  They
    are a parameter, constrained by what the Unicode standard fixes: a
    character with a decimal value is a digit, and on ASCII the digits are
    exactly ['0'] to ['9'] with their usual values. *)
Record UnicodeDB := {
  todecimal : N -> option Z;
  isdigit_cp : N -> bool;
  lower : pystr -> pystr;
  upper : pystr -> pystr;
  todecimal_isdigit : forall c d, todecimal c = Some d -> isdigit_cp c = true;
  ascii_todecimal : forall c, (c < 128)%N ->
    todecimal c = if ((48 <=? c) && (c <=? 57))%N then Some (Z.of_N c - 48) else None;
  ascii_isdigit : forall c, (c < 128)%N ->
    isdigit_cp c = ((48 <=? c) && (c <=? 57))%N;
}.

Section WithDB.
Context (db : UnicodeDB).

(** [s.isdigit()]: at least one character, and all of them digits. *)
Definition isdigit (s : pystr) : bool :=
  truthy s && forallb (isdigit_cp db) s.

(** The digits of [s] read in base ten, most significant first, on top
    of the accumulator [acc]; [None] at a character without a decimal
    value. *)
Fixpoint int_digits (acc : Z) (s : pystr) : option Z :=
  match s with
  | [] => Some acc
  | c :: s' =>
      match todecimal db c with
      | Some d => int_digits (10 * acc + d) s'
      | None => None
      end
  end.

(** [sys.get_int_max_str_digits()] as the interpreter starts with it:
    [int] refuses a decimal literal with more digits, leading zeros
    included.  The program never changes the limit. *)
Definition int_max_str_digits : nat := 4300.

(** [int(s)] for a string that passed [isdigit] (no sign, no blank, no
    underscore): the base-ten value of a literal of decimal digits that
    is not longer than the limit, and [ValueError] otherwise. *)
Definition int_ (s : pystr) : Res Z :=
  match s with
  | [] => Raise (mk_exn ValueError (u "invalid literal for int() with base 10"))
  | _ =>
      match int_digits 0 s with
      | Some n =>
          if (int_max_str_digits <? length s)%nat
          then Raise (mk_exn ValueError
                        (u "Exceeds the limit (4300 digits) for integer string conversion"))
          else Ok n
      | None => Raise (mk_exn ValueError (u "invalid literal for int() with base 10"))
      end
  end.
End WithDB.

End Py.
Export Py.

(* ===================================================================== *)
(** * Validation helpers *)
(* ===================================================================== *)

(** [is_valid_port(value)]: [value.isdigit() and 1 <= int(value) <= 65535].
    [and] evaluates [int] only when [isdigit] holds; an exception of [int]
    leaves the function. *)
Definition is_valid_port (db : UnicodeDB) (value : pystr) : Res bool :=
  if isdigit db value then
    match int_ db value with
    | Ok n => Ok ((1 <=? n) && (n <=? 65535))
    | Raise e => Raise e
    end
  else Ok false.

(* ===================================================================== *)
(** * Enumerations *)
(* ===================================================================== *)

Inductive ProcessState :=
| INITIAL
| RUNNING
| STOPPED_PARTIALLY
| STOPPED
| ERROR.

Global Instance ProcessState_eq_dec : EqDecision ProcessState.
Proof. solve_decision. Defined.

(** The [value] tuple of each member: label, dot, icon name. *)
Definition label (s : ProcessState) : pystr :=
  match s with
  | INITIAL => u "initial"
  | RUNNING => u "running"
  | STOPPED_PARTIALLY => u "stopped partially"
  | STOPPED => u "stopped"
  | ERROR => u "error"
  end.

Definition dot (s : ProcessState) : pystr :=
  match s with
  | INITIAL => [9899%N]
  | RUNNING => [128994%N]
  | STOPPED_PARTIALLY => [128992%N]
  | STOPPED => [9899%N]
  | ERROR => [128308%N]
  end.

Definition icon_name (s : ProcessState) : pystr :=
  match s with
  | INITIAL => u "stopped"
  | RUNNING => u "running"
  | STOPPED_PARTIALLY => u "stopped_partially"
  | STOPPED => u "stopped"
  | ERROR => u "error"
  end.

(** [Enum] members compare by identity unless their values coincide, in
    which case the later name is an alias of the earlier one.  The five
    value tuples differ pairwise (INITIAL and STOPPED differ in the
    label), so the five members are distinct. *)

(** [SusOpsApp._rc_to_state]: lookup in a three-entry dict with default. *)
Definition rc_table : gmap Z ProcessState :=
  <[0 := RUNNING]> (<[2 := STOPPED_PARTIALLY]> (<[3 := STOPPED]> ∅)).

Definition _rc_to_state (rc : Z) : ProcessState :=
  default ERROR (rc_table !! rc).

Inductive LogoStyle :=
| GEAR
| COLORED_GLASSES
| COLORED_S.

Global Instance LogoStyle_eq_dec : EqDecision LogoStyle.
Proof. solve_decision. Defined.

(** The member's [value], which is also its name. *)
Definition LogoStyle_value (l : LogoStyle) : pystr :=
  match l with
  | GEAR => u "GEAR"
  | COLORED_GLASSES => u "COLORED_GLASSES"
  | COLORED_S => u "COLORED_S"
  end.

Definition DEFAULT_LOGO_STYLE : LogoStyle := COLORED_GLASSES.

(** [name in LogoStyle.__members__] and [LogoStyle[name]]. *)
Definition LogoStyle_members : list (pystr * LogoStyle) :=
  map (fun l => (LogoStyle_value l, l)) [GEAR; COLORED_GLASSES; COLORED_S].

Definition LogoStyle_lookup (name : pystr) : option LogoStyle :=
  snd <$> find (fun p => str_eqb (fst p) name) LogoStyle_members.

(** [LogoStyle.dir_name]: [self.value.lower()]. *)
Definition dir_name (db : UnicodeDB) (l : LogoStyle) : pystr :=
  lower db (LogoStyle_value l).

(* ===================================================================== *)
(** * The host: processes, files, pixbufs *)
(* ===================================================================== *)

(** What [subprocess.run] does: the child completes with its captured
    streams and exit status, or the call raises. *)
Inductive outcome :=
| Completed (stdout stderr : pystr) (returncode : Z)
| Failed (e : exn).

Record Host := {
  (** [subprocess.run(argv, ..., timeout=t)] at a given instant *)
  h_subprocess_run : nat -> list pystr -> Z -> outcome;
  (** [os.path.exists(p)] *)
  h_exists : nat -> pystr -> bool;
  (** [os.path.isdir(p)] *)
  h_isdir : nat -> pystr -> bool;
  (** [os.makedirs(p, exist_ok=True)]: the exception raised, if any *)
  h_makedirs : nat -> pystr -> option exn;
  (** [GdkPixbuf.Pixbuf.new_from_file_at_size(svg, 22, 22)] followed by
      [savev(png, 'png', [], [])]: the exception raised, if any *)
  h_svg_to_png : nat -> pystr -> pystr -> option exn;
  (** [os.path.expanduser(p)] *)
  h_expanduser : pystr -> pystr;
  (** module-level constants, fixed when the module is imported *)
  SUSOPS_SH : option pystr;
  ICON_PATH : pystr;
  _ICONS_DIR : option pystr;
  _INDICATOR_BACKEND : option pystr;
}.

Definition WORKSPACE (h : Host) : pystr := h_expanduser h (u "~/.susops").

(** [posixpath.join] *)
Definition join2 (path b : pystr) : pystr :=
  if startswith (u "/") b then b
  else if negb (truthy path) || endswith (u "/") path then path ++ b
  else path ++ u "/" ++ b.

Definition path_join (a : pystr) (p : list pystr) : pystr := fold_left join2 p a.

Definition CONFIG_PATH (h : Host) : pystr := path_join (WORKSPACE h) [u "config.yaml"].

(* ===================================================================== *)
(** * The application object *)
(* ===================================================================== *)

Inductive menu_item := StartItem | StopItem | RestartItem | TestAnyItem | TestAllItem.

Global Instance menu_item_eq_dec : EqDecision menu_item.
Proof. solve_decision. Defined.

Inductive msg_type := MsgInfo | MsgError.

(** The calls made on the widgets, the indicator and the dialogs. *)
Inductive call :=
| SetMarkup (markup : pystr)                 (* _status_label.set_markup *)
| ShowAll                                    (* _status_item.show_all *)
| SetSensitive (it : menu_item) (b : bool)   (* <item>.set_sensitive *)
| IndicatorNew (icon : pystr)                (* _AI3.Indicator.new *)
| IndicatorThemePath (dir : pystr)           (* set_icon_theme_path *)
| IndicatorIconFromPath (path desc : pystr)
    (* set_icon_theme_path(dirname(path)); set_icon_full(stem(path), desc) *)
| IndicatorIconFull (name desc : pystr)      (* set_icon_full *)
| StatusIconFromFile (path : pystr)          (* _si.set_from_file *)
| StatusIconFromName (name : pystr)          (* _si.set_from_icon_name *)
| Alert (title body : pystr) (t : msg_type)  (* _alert *)
| Welcome                                    (* _show_welcome *)
| Print (line : pystr).                      (* print *)

(** A value stored in the [config] dict. *)
Inductive cfgval := VStr (s : pystr) | VBool (b : bool).

Definition cfg_truthy (v : cfgval) : bool :=
  match v with VStr s => truthy s | VBool b => b end.

(** The callbacks handed to [run_async]. *)
Inductive callback :=
| CbOnPollResult        (* self._on_poll_result *)
| CbAfterProxyCmd.      (* self._after_proxy_cmd *)

(** A worker thread started by [run_async] whose callback has not run. *)
Record invocation := mk_inv {
  inv_args : pystr;
  inv_callback : callback;
  inv_timeout : Z;
}.

Record App := mk_app {
  _state : ProcessState;
  config : gmap pystr cfgval;
  trace : list call;              (* most recent call first *)
  pending : list invocation;      (* in the order the threads were started *)
  startup_source : bool;          (* the idle source of _startup_check is attached *)
}.

(** The whole system: host, clock of host calls, application. *)
Record Sys := mk_sys {
  host : Host;
  clock : nat;
  app : App;
}.

(** ** What the widgets show, read off the trace *)

(** A GTK widget is sensitive until [set_sensitive(False)]. *)
Fixpoint sensitive (it : menu_item) (tr : list call) : bool :=
  match tr with
  | [] => true
  | SetSensitive it' b :: tr' => if decide (it' = it) then b else sensitive it tr'
  | _ :: tr' => sensitive it tr'
  end.

Fixpoint markup (tr : list call) : option pystr :=
  match tr with
  | [] => None
  | SetMarkup m :: _ => Some m
  | _ :: tr' => markup tr'
  end.

(** How many calls of a kind the trace holds. *)
Fixpoint count_calls (p : call -> bool) (tr : list call) : nat :=
  match tr with
  | [] => 0
  | c :: tr' => (if p c then 1 else 0) + count_calls p tr'
  end.

Definition is_welcome (c : call) : bool :=
  match c with Welcome => true | _ => false end.



(** The calls that change the tray icon. *)
Definition icon_call (c : call) : Prop :=
  match c with
  | IndicatorIconFromPath _ _ | IndicatorIconFull _ _
  | StatusIconFromFile _ | StatusIconFromName _ => True
  | _ => False
  end.


Definition welcome_count (tr : list call) : nat := count_calls is_welcome tr.

(* ===================================================================== *)
(** * The monad of the program: state and exceptions *)
(* ===================================================================== *)

Definition M (A : Type) : Type := Sys -> Res A * Sys.

Global Instance M_ret : MRet M := fun A a s => (Ok a, s).

Global Instance M_bind : MBind M := fun A B f m s =>
  match m s with
  | (Ok a, s') => f a s'
  | (Raise e, s') => (Raise e, s')
  end.

Definition raise {A} (e : exn) : M A := fun s => (Raise e, s).

(** [try: body except Exception as e: handler(e)]; what [body] did before
    raising stays done. *)
Definition try_except {A} (body : M A) (handler : exn -> M A) : M A := fun s =>
  match body s with
  | (Ok a, s') => (Ok a, s')
  | (Raise e, s') => handler e s'
  end.

Definition get_host : M Host := fun s => (Ok (host s), s).
Definition get_app : M App := fun s => (Ok (app s), s).
Definition modify_app (f : App -> App) : M unit := fun s =>
  (Ok tt, mk_sys (host s) (clock s) (f (app s))).

(** The instant of a host call; the clock advances. *)
Definition tick : M nat := fun s =>
  (Ok (clock s), mk_sys (host s) (S (clock s)) (app s)).

Definition set_state (st : ProcessState) (a : App) : App :=
  mk_app st (config a) (trace a) (pending a) (startup_source a).
Definition set_config (c : gmap pystr cfgval) (a : App) : App :=
  mk_app (_state a) c (trace a) (pending a) (startup_source a).
Definition log (c : call) (a : App) : App :=
  mk_app (_state a) (config a) (c :: trace a) (pending a) (startup_source a).
Definition set_pending (p : list invocation) (a : App) : App :=
  mk_app (_state a) (config a) (trace a) p (startup_source a).
Definition set_startup_source (b : bool) (a : App) : App :=
  mk_app (_state a) (config a) (trace a) (pending a) b.

Definition do_call (c : call) : M unit := modify_app (log c).

(** ** Host calls *)

Definition subprocess_run (argv : list pystr) (timeout : Z) : M (pystr * pystr * Z) :=
  h ← get_host; t ← tick;
  match h_subprocess_run h t argv timeout with
  | Completed out err rc => mret (out, err, rc)
  | Failed e => raise e
  end.

(** [subprocess.run(..., check=True)] *)
Definition subprocess_run_check (argv : list pystr) (timeout : Z) : M unit :=
  '(_, _, rc) ← subprocess_run argv timeout;
  if rc =? 0 then mret tt
  else raise (mk_exn CalledProcessError (u "Command returned non-zero exit status")).

Definition os_path_exists (p : pystr) : M bool :=
  h ← get_host; t ← tick; mret (h_exists h t p).

Definition os_path_isdir (p : pystr) : M bool :=
  h ← get_host; t ← tick; mret (h_isdir h t p).

Definition os_makedirs (p : pystr) : M unit :=
  h ← get_host; t ← tick;
  match h_makedirs h t p with
  | None => mret tt
  | Some e => raise e
  end.

Definition svg_to_png (svg png : pystr) : M unit :=
  h ← get_host; t ← tick;
  match h_svg_to_png h t svg png with
  | None => mret tt
  | Some e => raise e
  end.

(* ===================================================================== *)
(** * Module-level functions *)
(* ===================================================================== *)

Section Program.
Context (db : UnicodeDB).

(** [_is_dark_theme()] *)
Definition _is_dark_theme : M bool :=
  try_except
    ('(stdout, _, _) ← subprocess_run
       [u "gsettings"; u "get"; u "org.gnome.desktop.interface"; u "color-scheme"] 2;
     let out := strip stdout in
     if str_in (u "dark") (lower db out) then mret true
     else
       '(stdout, _, _) ← subprocess_run
         [u "gsettings"; u "get"; u "org.gnome.desktop.interface"; u "gtk-theme"] 2;
       let out := strip stdout in
       mret (str_in (u "dark") (lower db out)))
    (fun _ => mret false).

(** The tail of [_state_icon_path], from the cache directory on. *)
Definition convert_to_png (h : Host) (svg style_name state_name variant : pystr)
  : M pystr :=
  let cache_dir := h_expanduser h (u "~/.cache/susops/icons") in
  os_makedirs cache_dir;;
  let png := path_join cache_dir
               [style_name ++ u "_" ++ state_name ++ u "_" ++ variant ++ u ".png"] in
  png_exists ← os_path_exists png;
  if negb png_exists then
    try_except (svg_to_png svg png;; mret png) (fun _ => mret (ICON_PATH h))
  else mret png.

(** [_state_icon_path(state_name, logo_style)] *)
Definition _state_icon_path (state_name : pystr) (logo_style : option LogoStyle)
  : M pystr :=
  h ← get_host;
  match _ICONS_DIR h with
  | None => mret (ICON_PATH h)
  | Some icons_dir =>
      if negb (truthy icons_dir) then mret (ICON_PATH h)
      else
        dark ← _is_dark_theme;
        let variant := if (dark : bool) then u "light" else u "dark" in
        let style := match logo_style with
                     | Some l => l
                     | None => DEFAULT_LOGO_STYLE
                     end in
        let style_name := dir_name db style in
        let svg := path_join icons_dir [style_name; variant; state_name ++ u ".svg"] in
        svg_exists ← os_path_exists svg;
        if negb svg_exists then
          let style_name := dir_name db DEFAULT_LOGO_STYLE in
          let svg := path_join icons_dir [style_name; variant; state_name ++ u ".svg"] in
          svg_exists ← os_path_exists svg;
          if negb svg_exists then mret (ICON_PATH h)
          else convert_to_png h svg style_name state_name variant
        else convert_to_png h svg style_name state_name variant
  end.

(** ** [ConfigHelper] *)

(** [ConfigHelper.read(query, default)] *)
Definition ConfigHelper_read (query default : pystr) : M pystr :=
  h ← get_host;
  config_exists ← os_path_exists (CONFIG_PATH h);
  if negb config_exists then mret default
  else
    try_except
      ('(stdout, _, returncode) ← subprocess_run
         [u "yq"; u "e"; query; CONFIG_PATH h] 5;
       let out := strip stdout in
       mret (if str_eqb out (u "null") || negb (returncode =? 0) then default else out))
      (fun _ => mret default).

(** [ConfigHelper.write(query)] *)
Definition ConfigHelper_write (query : pystr) : M bool :=
  h ← get_host;
  os_makedirs (WORKSPACE h);;
  try_except
    (subprocess_run_check [u "yq"; u "e"; u "-i"; query; CONFIG_PATH h] 5;;
     mret true)
    (fun exc =>
       do_call (Print (u "Config write error: " ++ exn_str exc));;
       mret false).

(** [ConfigHelper.load_app_config()] *)
Definition ConfigHelper_load_app_config : M (gmap pystr cfgval) :=
  logo_style_raw ← ConfigHelper_read (u ".susops_app.logo_style")
                     (LogoStyle_value DEFAULT_LOGO_STYLE);
  let logo_style_raw :=
    match LogoStyle_lookup (upper db logo_style_raw) with
    | None => LogoStyle_value DEFAULT_LOGO_STYLE
    | Some _ => logo_style_raw
    end in
  pac ← ConfigHelper_read (u ".pac_server_port") (u "0");
  stop ← ConfigHelper_read (u ".susops_app.stop_on_quit") (u "1");
  eph ← ConfigHelper_read (u ".susops_app.ephemeral_ports") (u "1");
  mret (<[u "pac_server_port" := VStr pac]>
        (<[u "stop_on_quit" := VBool (str_eqb stop (u "1"))]>
         (<[u "ephemeral_ports" := VBool (str_eqb eph (u "1"))]>
          (<[u "logo_style" := VStr (upper db logo_style_raw)]> ∅)))).

(** ** Running the susops command *)

(** [_build_cmd(susops_args)] *)
Definition _build_cmd (h : Host) (susops_args : pystr) : list pystr :=
  match SUSOPS_SH h with
  | Some sh => if truthy sh then [sh] ++ split susops_args
               else [u "susops"] ++ split susops_args
  | None => [u "susops"] ++ split susops_args
  end.

(** [run_cmd(susops_args, timeout)] *)
Definition run_cmd (susops_args : pystr) (timeout : Z) : M (pystr * Z) :=
  try_except
    (h ← get_host;
     '(stdout, stderr, returncode) ← subprocess_run (_build_cmd h susops_args) timeout;
     let out := str_or (strip stdout) (strip stderr) in
     mret (out, returncode))
    (fun exc =>
       if exn_class_eqb (exn_cls exc) TimeoutExpired
       then mret (u "Command timed out", 1)
       else mret (exn_str exc, 1)).

(** [run_async(susops_args, callback, timeout)]: a worker thread is
    started; it runs [run_cmd] and hands the result to the main loop,
    which calls [callback(out, rc)] (see [deliver] below). *)
Definition run_async (susops_args : pystr) (cb : callback) (timeout : Z) : M unit :=
  modify_app (fun a => set_pending (pending a ++ [mk_inv susops_args cb timeout]) a).

(* =================================================================== *)
(** * [SusOpsApp] *)
(* =================================================================== *)

(** [_alert(parent, title, body, msg_type)]: a modal message dialog. *)
Definition _alert (title body : pystr) (t : msg_type) : M unit :=
  do_call (Alert title body t).

(** [_current_logo_style()]: [LogoStyle[self.config.get('logo_style',
    DEFAULT_LOGO_STYLE.value)]] *)
Definition _current_logo_style : M LogoStyle :=
  a ← get_app;
  match default (VStr (LogoStyle_value DEFAULT_LOGO_STYLE))
                (config a !! u "logo_style") with
  | VStr name =>
      match LogoStyle_lookup name with
      | Some l => mret l
      | None => raise (mk_exn KeyError name)
      end
  | VBool _ => raise (mk_exn KeyError (u "logo_style"))
  end.

(** [_update_status_icon(state)] *)
Definition _update_status_icon (state : ProcessState) : M unit :=
  h ← get_host;
  style ← _current_logo_style;
  icon ← _state_icon_path (icon_name state) (Some style);
  icon_exists ← (if truthy icon then os_path_exists icon else mret false);
  if (icon_exists : bool) then do_call (StatusIconFromFile icon)
  else
    fallback_exists ← os_path_exists (ICON_PATH h);
    if (fallback_exists : bool) then do_call (StatusIconFromFile (ICON_PATH h))
    else do_call (StatusIconFromName (u "network-vpn")).

(** [_update_tray_icon(state)] *)
Definition _update_tray_icon (state : ProcessState) : M unit :=
  try_except
    (h ← get_host;
     style ← _current_logo_style;
     icon_path ← _state_icon_path (icon_name state) (Some style);
     match _INDICATOR_BACKEND h with
     | Some _ =>
         icon_exists ← (if truthy icon_path then os_path_exists icon_path
                        else mret false);
         if (icon_exists : bool)
         then do_call (IndicatorIconFromPath icon_path (label state))
         else do_call (IndicatorIconFull
                         (str_or (ICON_PATH h) (u "network-vpn")) (label state))
     | None => _update_status_icon state
     end)
    (fun _ => mret tt).

(** [_setup_indicator()] *)
Definition _setup_indicator : M unit :=
  h ← get_host;
  style ← _current_logo_style;
  p ← _state_icon_path (icon_name STOPPED) (Some style);
  let icon := str_or (str_or p (ICON_PATH h)) (u "network-vpn") in
  match _INDICATOR_BACKEND h with
  | Some _ =>
      do_call (IndicatorNew icon);;
      let cache_dir := h_expanduser h (u "~/.cache/susops/icons") in
      isdir ← os_path_isdir cache_dir;
      if (isdir : bool) then do_call (IndicatorThemePath cache_dir) else mret tt
  | None => _update_status_icon STOPPED
  end.

(** The status line written by [_apply_state]. *)
Definition status_markup (s : ProcessState) : pystr :=
  dot s ++ u " <b>Status:</b> " ++ label s.

(** The status line written while a command is on its way; the last
    character is the horizontal ellipsis. *)
Definition progress_markup (word : pystr) : pystr :=
  dot INITIAL ++ u " <b>Status:</b> " ++ word ++ [8230%N].

(** [_apply_state(new_state)] *)
Definition _apply_state (new_state : ProcessState) : M unit :=
  a ← get_app;
  if decide (new_state = _state a) then mret tt
  else
    do_call (SetMarkup (status_markup new_state));;
    do_call ShowAll;;
    _update_tray_icon new_state;;
    let running := bool_decide (new_state = RUNNING) in
    let partial := bool_decide (new_state = STOPPED_PARTIALLY) in
    let error := bool_decide (new_state = ERROR) in
    do_call (SetSensitive StartItem (negb running && negb error));;
    do_call (SetSensitive StopItem (running || partial));;
    do_call (SetSensitive RestartItem (running || partial));;
    do_call (SetSensitive TestAnyItem (running || partial));;
    do_call (SetSensitive TestAllItem (running || partial));;
    modify_app (set_state new_state).

(** [_show_welcome()] *)
Definition _show_welcome : M unit := do_call Welcome.

(** [_startup_check()] *)
Definition _startup_check : M bool :=
  '(out, rc) ← run_cmd (u "ps") 10;
  let new_state := _rc_to_state rc in
  _apply_state new_state;;
  (if bool_decide (new_state = ERROR) && str_in (u "no default connection found") out
   then _show_welcome else mret tt);;
  mret false.

(** [_poll()] *)
Definition _poll : M bool :=
  run_async (u "ps") CbOnPollResult 10;;
  mret true.

(** [_on_poll_result(out, rc)] *)
Definition _on_poll_result (out : pystr) (rc : Z) : M unit :=
  let state := _rc_to_state rc in
  _apply_state state.

(** [_on_start(_)] *)
Definition _on_start : M unit :=
  do_call (SetSensitive StartItem false);;
  do_call (SetMarkup (progress_markup (u "starting")));;
  run_async (u "start") CbAfterProxyCmd 60.

(** [_on_stop(_)] *)
Definition _on_stop : M unit :=
  do_call (SetSensitive StopItem false);;
  do_call (SetMarkup (progress_markup (u "stopping")));;
  a ← get_app;
  let keep :=
    if negb (cfg_truthy (default (VBool true) (config a !! u "ephemeral_ports")))
    then u "--keep-ports" else [] in
  run_async (strip (u "stop " ++ keep)) CbAfterProxyCmd 30.

(** [_on_restart(_)] *)
Definition _on_restart : M unit :=
  cfg ← ConfigHelper_load_app_config;
  modify_app (set_config cfg);;
  do_call (SetSensitive RestartItem false);;
  do_call (SetMarkup (progress_markup (u "restarting")));;
  run_async (u "restart") CbAfterProxyCmd 60.

(** [_after_proxy_cmd(out, rc)] *)
Definition _after_proxy_cmd (out : pystr) (rc : Z) : M unit :=
  modify_app (set_state INITIAL);;
  _poll;;
  if negb (rc =? 0) && truthy out
  then _alert (u "Error") out MsgError
  else mret tt.

(** The object before [__init__] has run. *)
Definition new_app : App := mk_app INITIAL ∅ [] [] false.

(** [__init__()]: the state, the configuration, the menu with its status
    line, the indicator, and the idle source of the startup check (the
    timeout source of [_poll] is the event [EvPollTimer] below). *)
Definition SusOpsApp_init : M unit :=
  modify_app (set_state INITIAL);;
  cfg ← ConfigHelper_load_app_config;
  modify_app (set_config cfg);;
  do_call (SetMarkup (progress_markup (u "checking")));;
  _setup_indicator;;
  modify_app (set_startup_source true).

(* =================================================================== *)
(** * The main loop *)
(* =================================================================== *)

(** The callback of a finished worker, run by the main loop. *)
Definition deliver (cb : callback) (out : pystr) (rc : Z) : M unit :=
  match cb with
  | CbOnPollResult => _on_poll_result out rc
  | CbAfterProxyCmd => _after_proxy_cmd out rc
  end.

(** A worker thread from start to the delivery of its result:
    [out, rc = run_cmd(args, timeout)] then [GLib.idle_add(callback,
    out, rc)].  The worker touches nothing but the host. *)
Definition worker (inv : invocation) : M unit :=
  '(out, rc) ← run_cmd (inv_args inv) (inv_timeout inv);
  deliver (inv_callback inv) out rc.

(** What the main loop can dispatch.  Callbacks run one at a time. *)
Inductive event :=
| EvStartupCheck            (* the idle source of [_startup_check] *)
| EvPollTimer               (* the 5 s timeout source of [_poll] *)
| EvWorkerDone (i : nat)    (* the [i]-th pending worker finishes *)
| EvStart                   (* 'Start Proxy' activated *)
| EvStop                    (* 'Stop Proxy' activated *)
| EvRestart.                (* 'Restart Proxy' activated *)

(** One dispatch; [None] when the event cannot happen: the idle source
    is gone, there is no such worker, or the menu item is insensitive.
    An idle source is removed when its callback returns [False]; the
    timeout source of [_poll] stays since [_poll] returns [True]. *)
Definition step (e : event) (s : Sys) : option (Res unit * Sys) :=
  match e with
  | EvStartupCheck =>
      if startup_source (app s)
      then Some ((keep ← _startup_check; modify_app (set_startup_source keep)) s)
      else None
  | EvPollTimer => Some ((_poll;; mret tt) s)
  | EvWorkerDone i =>
      match pending (app s) !! i with
      | Some inv =>
          Some ((modify_app (fun a => set_pending (delete i (pending a)) a);;
                 worker inv) s)
      | None => None
      end
  | EvStart =>
      if sensitive StartItem (trace (app s)) then Some (_on_start s) else None
  | EvStop =>
      if sensitive StopItem (trace (app s)) then Some (_on_stop s) else None
  | EvRestart =>
      if sensitive RestartItem (trace (app s)) then Some (_on_restart s) else None
  end.

(** A run of the main loop. *)
Fixpoint run (evs : list event) (s : Sys) : option Sys :=
  match evs with
  | [] => Some s
  | e :: evs' =>
      match step e s with
      | Some (_, s') => run evs' s'
      | None => None
      end
  end.

End Program.

Global Instance event_eq_dec : EqDecision event.
Proof. solve_decision. Defined.

(* ===================================================================== *)
(** * A concrete character database *)
(* ===================================================================== *)

(** The database restricted to Latin-1: the decimal digits are the ASCII
    ones, the superscripts two, three and one are digits without a decimal
    value, and case mapping acts on the ASCII letters. *)
Definition basic_todecimal (c : N) : option Z :=
  if ((48 <=? c) && (c <=? 57))%N then Some (Z.of_N c - 48) else None.

Definition basic_isdigit (c : N) : bool :=
  ((48 <=? c) && (c <=? 57) || (c =? 178) || (c =? 179) || (c =? 185))%N.

Definition basic_lower_cp (c : N) : N :=
  if ((65 <=? c) && (c <=? 90))%N then (c + 32)%N else c.

Definition basic_upper_cp (c : N) : N :=
  if ((97 <=? c) && (c <=? 122))%N then (c - 32)%N else c.

Lemma basic_todecimal_isdigit c d :
  basic_todecimal c = Some d -> basic_isdigit c = true.
Proof.
  unfold basic_todecimal, basic_isdigit.
  destruct ((48 <=? c) && (c <=? 57))%N; [reflexivity | discriminate].
Qed.

Lemma basic_ascii_isdigit c :
  (c < 128)%N -> basic_isdigit c = ((48 <=? c) && (c <=? 57))%N.
Proof.
  intros H. unfold basic_isdigit.
  assert ((c =? 178) = false)%N as -> by (apply N.eqb_neq; lia).
  assert ((c =? 179) = false)%N as -> by (apply N.eqb_neq; lia).
  assert ((c =? 185) = false)%N as -> by (apply N.eqb_neq; lia).
  now rewrite !orb_false_r.
Qed.

Definition basic_db : UnicodeDB :=
  {| todecimal := basic_todecimal;
     isdigit_cp := basic_isdigit;
     lower := map basic_lower_cp;
     upper := map basic_upper_cp;
     todecimal_isdigit := basic_todecimal_isdigit;
     ascii_todecimal := fun c _ => eq_refl;
     ascii_isdigit := basic_ascii_isdigit |}.

(* ===================================================================== *)
(** * Properties *)
(* ===================================================================== *)

(** ** The state classifier *)

Lemma rc_to_state_cases (rc : Z) :
  _rc_to_state rc =
    if rc =? 0 then RUNNING
    else if rc =? 2 then STOPPED_PARTIALLY
    else if rc =? 3 then STOPPED
    else ERROR.
Proof.
  unfold _rc_to_state, rc_table.
  destruct (Z.eqb_spec rc 0) as [->|H0]; [by rewrite lookup_insert_eq|].
  rewrite lookup_insert_ne by done.
  destruct (Z.eqb_spec rc 2) as [->|H2]; [by rewrite lookup_insert_eq|].
  rewrite lookup_insert_ne by done.
  destruct (Z.eqb_spec rc 3) as [->|H3]; [by rewrite lookup_insert_eq|].
  rewrite lookup_insert_ne by done.
  by rewrite lookup_empty.
Qed.


(** C1. The classifier sends 0 to RUNNING, 2 to STOPPED_PARTIALLY, 3 to
    STOPPED and every other exit code to ERROR; being a function on all
    integers, it gives every exit code exactly one state. *)
Theorem rc_to_state_total (rc : Z) :
  _rc_to_state 0 = RUNNING /\
  _rc_to_state 2 = STOPPED_PARTIALLY /\
  _rc_to_state 3 = STOPPED /\
  (rc <> 0 -> rc <> 2 -> rc <> 3 -> _rc_to_state rc = ERROR) /\
  (exists st, _rc_to_state rc = st /\ forall st', _rc_to_state rc = st' -> st' = st).
Proof.
  split; [reflexivity|]. split; [reflexivity|]. split; [reflexivity|]. split.
  - intros H0 H2 H3. rewrite rc_to_state_cases.
    apply Z.eqb_neq in H0, H2, H3. by rewrite H0, H2, H3.
  - exists (_rc_to_state rc). split; [reflexivity | congruence].
Qed.

Lemma rc_to_state_total_witness :
  _rc_to_state 9 = ERROR /\ _rc_to_state (-1) = ERROR /\ _rc_to_state 1 = ERROR.
Proof.
  split; [|split].
  - apply (rc_to_state_total 9); lia.
  - apply (rc_to_state_total (-1)); lia.
  - apply (rc_to_state_total 1); lia.
Defined.

(** ** The port validator *)

Section PortValidator.
Context (db : UnicodeDB).

(** A character with a decimal value. *)
Definition decimal_cp (c : N) : Prop := is_Some (todecimal db c).










End PortValidator.





(** ** Reasoning about computations *)

(** Unfold the monad down to functions on [Sys]. *)
Ltac munfold :=
  unfold mbind, M_bind, mret, M_ret, raise, try_except, get_host, get_app,
    modify_app, tick, do_call in *.

(** [m] leaves the host alone and relates the application before and
    after by [R]. *)
Definition frames {A} (R : App -> App -> Prop) (m : M A) : Prop :=
  forall s, host (m s).2 = host s /\ R (app s) (app (m s).2).

(** [m] returns; it never raises. *)
Definition total {A} (m : M A) : Prop :=
  forall s, is_ok (m s).1 = true.

Section Frames.
Context (R : App -> App -> Prop) `{!Reflexive R} `{!Transitive R}.

Lemma frames_ret {A} (a : A) : frames R (mret a).
Proof. intros s. by split. Qed.

Lemma frames_raise {A} (e : exn) : frames R (@raise A e).
Proof. intros s. by split. Qed.

Lemma frames_bind {A B} (m : M A) (f : A -> M B) :
  frames R m -> (forall a, frames R (f a)) -> frames R (m ≫= f).
Proof.
  intros Hm Hf s. munfold. specialize (Hm s).
  destruct (m s) as [[a|e] s1]; simpl in *; [|done].
  destruct Hm as [Hh HR]. specialize (Hf a s1) as [Hh' HR'].
  split; [congruence | by etrans].
Qed.

Lemma frames_try {A} (m : M A) (h : exn -> M A) :
  frames R m -> (forall e, frames R (h e)) -> frames R (try_except m h).
Proof.
  intros Hm Hh s. munfold. specialize (Hm s).
  destruct (m s) as [[a|e] s1]; simpl in *; [done|].
  destruct Hm as [Hh1 HR]. specialize (Hh e s1) as [Hh' HR'].
  split; [congruence | by etrans].
Qed.

Lemma frames_get_host : frames R get_host.
Proof. intros s. by split. Qed.

Lemma frames_get_app : frames R get_app.
Proof. intros s. by split. Qed.

Lemma frames_tick : frames R tick.
Proof. intros s. by split. Qed.

Lemma frames_modify (f : App -> App) :
  (forall a, R a (f a)) -> frames R (modify_app f).
Proof. intros Hf s. by split. Qed.
End Frames.

Lemma frames_mono {A} (R R' : App -> App -> Prop) (m : M A) :
  (forall a a', R a a' -> R' a a') -> frames R m -> frames R' m.
Proof. intros HR Hm s. destruct (Hm s). split; auto. Qed.

Lemma total_ret {A} (a : A) : total (mret a).
Proof. by intros s. Qed.

Lemma total_bind {A B} (m : M A) (f : A -> M B) :
  total m -> (forall a, total (f a)) -> total (m ≫= f).
Proof.
  intros Hm Hf s. munfold. specialize (Hm s).
  destruct (m s) as [[a|e] s1]; simpl in *; [apply Hf | done].
Qed.

Lemma total_try {A} (m : M A) (h : exn -> M A) :
  (forall e, total (h e)) -> total (try_except m h).
Proof.
  intros Hh s. munfold.
  destruct (m s) as [[a|e] s1]; simpl; [done | apply Hh].
Qed.

Lemma total_modify (f : App -> App) : total (modify_app f).
Proof. by intros s. Qed.

Lemma total_get_app : total get_app.
Proof. by intros s. Qed.

Lemma total_get_host : total get_host.
Proof. by intros s. Qed.

Lemma total_tick : total tick.
Proof. by intros s. Qed.

(** One step of a syntax-directed proof of [frames] or [total]. *)
Ltac mstep :=
  cbv zeta;
  match goal with
  | |- frames _ (mret _) => apply frames_ret; try tc_solve
  | |- frames _ (raise _) => apply frames_raise; try tc_solve
  | |- frames _ (_ ≫= _) => apply frames_bind; [tc_solve | | intros ?]
  | |- frames _ (try_except _ _) => apply frames_try; [tc_solve | | intros ?]
  | |- frames _ get_host => apply frames_get_host; tc_solve
  | |- frames _ get_app => apply frames_get_app; tc_solve
  | |- frames _ tick => apply frames_tick; tc_solve
  | |- total (mret _) => apply total_ret
  | |- total (_ ≫= _) => apply total_bind; [ | intros ?]
  | |- total (try_except _ _) => apply total_try; intros ?
  | |- total (modify_app _) => apply total_modify
  | |- total get_app => apply total_get_app
  | |- total get_host => apply total_get_host
  | |- total tick => apply total_tick
  | |- _ (let '(_, _) := ?p in _) => destruct p
  | |- _ (match ?x with _ => _ end) => destruct x
  | |- _ (if ?b then _ else _) => destruct b
  end.

(** The application after a computation that only adds calls satisfying
    [P] to the trace. *)
Definition logs (P : call -> Prop) (a a' : App) : Prop :=
  _state a' = _state a /\ config a' = config a /\ pending a' = pending a /\
  startup_source a' = startup_source a /\
  exists l, trace a' = l ++ trace a /\ Forall P l.

Global Instance logs_refl P : Reflexive (logs P).
Proof. intros a. repeat split. by exists []. Qed.

Global Instance logs_trans P : Transitive (logs P).
Proof.
  intros a b c (H1 & H2 & H3 & H4 & l & Hl & HP) (H1' & H2' & H3' & H4' & l' & Hl' & HP').
  repeat split; try congruence.
  exists (l' ++ l). split; [by rewrite Hl', Hl, app_assoc | by apply Forall_app].
Qed.

Lemma frames_do_call (P : call -> Prop) (c : call) :
  P c -> frames (logs P) (do_call c).
Proof.
  intros Hc s. split; [done|]. repeat split. exists [c]. split; [done|].
  by constructor.
Qed.

Lemma total_do_call (c : call) : total (do_call c).
Proof. by intros s. Qed.

Lemma frames_eq_logs {A} (P : call -> Prop) (m : M A) :
  frames eq m -> frames (logs P) m.
Proof. apply frames_mono. by intros a ? <-. Qed.

(** ** The host-level functions leave the application alone *)

Lemma subprocess_run_frames argv timeout : frames eq (subprocess_run argv timeout).
Proof. unfold subprocess_run. repeat mstep. Qed.

Lemma os_path_exists_frames p : frames eq (os_path_exists p).
Proof. unfold os_path_exists. repeat mstep. Qed.

Lemma os_path_isdir_frames p : frames eq (os_path_isdir p).
Proof. unfold os_path_isdir. repeat mstep. Qed.

Lemma os_makedirs_frames p : frames eq (os_makedirs p).
Proof. unfold os_makedirs. repeat mstep. Qed.

Lemma svg_to_png_frames svg png : frames eq (svg_to_png svg png).
Proof. unfold svg_to_png. repeat mstep. Qed.

Ltac mframes :=
  repeat first
    [ apply subprocess_run_frames | apply os_path_exists_frames
    | apply os_path_isdir_frames | apply os_makedirs_frames
    | apply svg_to_png_frames | mstep ].

Section HostLevel.
Context (db : UnicodeDB).

Lemma is_dark_theme_frames : frames eq (_is_dark_theme db).
Proof. unfold _is_dark_theme. mframes. Qed.

Lemma is_dark_theme_total : total (_is_dark_theme db).
Proof. unfold _is_dark_theme. repeat mstep. Qed.

Lemma convert_to_png_frames h svg style_name state_name variant :
  frames eq (convert_to_png h svg style_name state_name variant).
Proof. unfold convert_to_png. mframes. Qed.

Lemma state_icon_path_frames state_name logo_style :
  frames eq (_state_icon_path db state_name logo_style).
Proof.
  unfold _state_icon_path.
  repeat first [ apply is_dark_theme_frames | apply convert_to_png_frames
               | apply os_path_exists_frames | mstep ].
Qed.

Lemma ConfigHelper_read_frames query default :
  frames eq (ConfigHelper_read query default).
Proof. unfold ConfigHelper_read. mframes. Qed.

Lemma subprocess_run_check_frames argv timeout :
  frames eq (subprocess_run_check argv timeout).
Proof. unfold subprocess_run_check. mframes. Qed.

Lemma ConfigHelper_load_app_config_frames :
  frames eq (ConfigHelper_load_app_config db).
Proof.
  unfold ConfigHelper_load_app_config.
  repeat first [ apply ConfigHelper_read_frames | mstep ].
Qed.

Lemma run_cmd_frames args timeout : frames eq (run_cmd args timeout).
Proof. unfold run_cmd. mframes. Qed.

(** ** The command runner *)

(** What [run_cmd] returns, by what [subprocess.run] does. *)
Definition run_cmd_result (o : outcome) : pystr * Z :=
  match o with
  | Completed stdout stderr returncode =>
      (str_or (strip stdout) (strip stderr), returncode)
  | Failed exc =>
      if exn_class_eqb (exn_cls exc) TimeoutExpired
      then (u "Command timed out", 1)
      else (exn_str exc, 1)
  end.

Lemma run_cmd_eq (args : pystr) (timeout : Z) (s : Sys) :
  run_cmd args timeout s =
    (Ok (run_cmd_result
           (h_subprocess_run (host s) (clock s) (_build_cmd (host s) args) timeout)),
     mk_sys (host s) (S (clock s)) (app s)).
Proof.
  unfold run_cmd, subprocess_run. munfold. simpl.
  destruct (h_subprocess_run _ _ _ _) as [out err rc|e]; simpl; [done|].
  by destruct (exn_class_eqb _ _).
Qed.

Lemma run_cmd_total args timeout : total (run_cmd args timeout).
Proof. intros s. by rewrite run_cmd_eq. Qed.

(** C5. When the child outlives the timeout, that is when
    [subprocess.run] raises [TimeoutExpired], the runner returns the
    text "Command timed out" with exit code 1. *)
Theorem run_cmd_timeout (args : pystr) (timeout : Z) (s : Sys) (exc : exn) :
  h_subprocess_run (host s) (clock s) (_build_cmd (host s) args) timeout = Failed exc ->
  exn_cls exc = TimeoutExpired ->
  (run_cmd args timeout s).1 = Ok (u "Command timed out", 1).
Proof.
  intros Ho Hc. rewrite run_cmd_eq. simpl. rewrite Ho. simpl. by rewrite Hc.
Qed.

(** C6. Whatever [subprocess.run] does, the runner returns a pair and
    raises nothing; when launching the child fails with an exception
    other than the timeout, the pair is the exception's message with
    exit code 1. *)
Theorem run_cmd_never_raises (args : pystr) (timeout : Z) (s : Sys) :
  (exists out rc, (run_cmd args timeout s).1 = Ok (out, rc)) /\
  (forall exc,
     h_subprocess_run (host s) (clock s) (_build_cmd (host s) args) timeout
       = Failed exc ->
     exn_cls exc <> TimeoutExpired ->
     (run_cmd args timeout s).1 = Ok (exn_str exc, 1)).
Proof.
  rewrite run_cmd_eq. simpl. split.
  - destruct (run_cmd_result _) as [out rc]. by exists out, rc.
  - intros exc -> Hc. simpl.
    destruct (exn_cls exc); simpl; congruence.
Qed.
End HostLevel.

(** ** Sample hosts *)

(** A desktop with the script, the icons and an indicator backend
    installed, where every path exists and the pixbuf conversion works;
    [run] answers the child processes and [mkdirs] the directory
    creations. *)
Definition sample_host (run : nat -> list pystr -> Z -> outcome)
    (mkdirs : nat -> pystr -> option exn) : Host :=
  {| h_subprocess_run := run;
     h_exists := fun _ _ => true;
     h_isdir := fun _ _ => true;
     h_makedirs := mkdirs;
     h_svg_to_png := fun _ _ _ => None;
     h_expanduser := fun p =>
       if startswith (u "~") p then u "/home/user" ++ drop 1 p else p;
     SUSOPS_SH := Some (u "/usr/lib/susops/susops.sh");
     ICON_PATH := u "/usr/lib/susops/icon.png";
     _ICONS_DIR := Some (u "/usr/lib/susops/icons");
     _INDICATOR_BACKEND := Some (u "ayatana") |}.

(** Every child exits with [rc] after printing [out]. *)
Definition always (out : pystr) (rc : Z) : nat -> list pystr -> Z -> outcome :=
  fun _ _ _ => Completed out [] rc.

(** Every child process fails with [e]. *)
Definition failing (e : exn) : nat -> list pystr -> Z -> outcome :=
  fun _ _ _ => Failed e.

Definition mkdirs_ok : nat -> pystr -> option exn := fun _ _ => None.

(** The home directory is read-only: no directory can be created. *)
Definition mkdirs_denied : nat -> pystr -> option exn :=
  fun _ p => Some (mk_exn PermissionError (u "[Errno 13] Permission denied")).

Definition boot (h : Host) : Sys := mk_sys h 0 new_app.

Example run_cmd_ps_stopped :
  (run_cmd (u "ps") 10 (boot (sample_host (always (u "stopped ") 3) mkdirs_ok))).1
  = Ok (u "stopped", 3).
Proof. reflexivity. Qed.

Example build_cmd_stop :
  _build_cmd (sample_host (always [] 0) mkdirs_ok) (u "stop  --keep-ports")
  = [u "/usr/lib/susops/susops.sh"; u "stop"; u "--keep-ports"].
Proof. reflexivity. Qed.

Lemma run_cmd_timeout_witness :
  (run_cmd (u "start") 60
     (boot (sample_host (failing (mk_exn TimeoutExpired (u "timed out after 60 seconds")))
                        mkdirs_ok))).1
  = Ok (u "Command timed out", 1).
Proof.
  apply (run_cmd_timeout (u "start") 60 _
           (mk_exn TimeoutExpired (u "timed out after 60 seconds")));
    reflexivity.
Defined.

Lemma run_cmd_never_raises_witness :
  (run_cmd (u "start") 60
     (boot (sample_host (failing (mk_exn FileNotFoundError (u "No such file or directory")))
                        mkdirs_ok))).1
  = Ok (u "No such file or directory", 1).
Proof.
  apply (proj2 (run_cmd_never_raises (u "start") 60 _)
           (mk_exn FileNotFoundError (u "No such file or directory")));
    [reflexivity | discriminate].
Defined.

(** ** The configuration store *)

Section ConfigStore.

Lemma os_path_exists_total p : total (os_path_exists p).
Proof. unfold os_path_exists. repeat mstep. Qed.

Lemma ConfigHelper_read_total query default :
  total (ConfigHelper_read query default).
Proof.
  unfold ConfigHelper_read.
  repeat first [apply os_path_exists_total | mstep].
Qed.

(** What [read] returns, by what the host answers. *)
Definition read_result (default : pystr) (config_exists : bool) (o : outcome) : pystr :=
  if negb config_exists then default
  else match o with
       | Completed stdout _ returncode =>
           let out := strip stdout in
           if str_eqb out (u "null") || negb (returncode =? 0) then default else out
       | Failed _ => default
       end.

Lemma ConfigHelper_read_eq (query default : pystr) (s : Sys) :
  (ConfigHelper_read query default s).1 =
    Ok (read_result default
          (h_exists (host s) (clock s) (CONFIG_PATH (host s)))
          (h_subprocess_run (host s) (S (clock s))
             [u "yq"; u "e"; query; CONFIG_PATH (host s)] 5)).
Proof.
  unfold ConfigHelper_read, os_path_exists, subprocess_run, read_result.
  munfold. simpl.
  destruct (h_exists _ _ _); simpl; [|done].
  by destruct (h_subprocess_run _ _ _ _).
Qed.

(** Every failure of a read yields the default. *)
Lemma ConfigHelper_read_failure (query default : pystr) (s : Sys) :
  let h := host s in
  let o := h_subprocess_run h (S (clock s)) [u "yq"; u "e"; query; CONFIG_PATH h] 5 in
  (h_exists h (clock s) (CONFIG_PATH h) = false \/
   (exists e, o = Failed e) \/
   (exists out err rc, o = Completed out err rc /\ (strip out = u "null" \/ rc <> 0))) ->
  (ConfigHelper_read query default s).1 = Ok default.
Proof.
  intros h o H. rewrite ConfigHelper_read_eq. fold h. fold o. f_equal.
  unfold read_result.
  destruct H as [->|[[e ->]|(out & err & rc & -> & H)]]; [done| |].
  - by destruct (h_exists _ _ _).
  - destruct (h_exists _ _ _); [|done]. simpl.
    destruct H as [->|H]; [done|].
    apply Z.eqb_neq in H. rewrite H. by rewrite orb_true_r.
Qed.

(** What [write] does, by what the host answers. *)
Lemma ConfigHelper_write_eq (query : pystr) (s : Sys) :
  (ConfigHelper_write query s).1 =
    match h_makedirs (host s) (clock s) (WORKSPACE (host s)) with
    | Some e => Raise e
    | None =>
        match h_subprocess_run (host s) (S (clock s))
                [u "yq"; u "e"; u "-i"; query; CONFIG_PATH (host s)] 5 with
        | Completed _ _ rc => Ok (rc =? 0)
        | Failed _ => Ok false
        end
    end.
Proof.
  unfold ConfigHelper_write, os_makedirs, subprocess_run_check, subprocess_run.
  munfold. simpl.
  destruct (h_makedirs _ _ _); simpl; [done|].
  destruct (h_subprocess_run _ _ _ _) as [out err rc|e]; simpl; [|done].
  by destruct (rc =? 0).
Qed.

(** Once the workspace directory is there, a failing write is reported
    as [False]. *)
Lemma ConfigHelper_write_failure (query : pystr) (s : Sys) :
  let h := host s in
  let o := h_subprocess_run h (S (clock s))
             [u "yq"; u "e"; u "-i"; query; CONFIG_PATH h] 5 in
  h_makedirs h (clock s) (WORKSPACE h) = None ->
  ((exists e, o = Failed e) \/ (exists out err rc, o = Completed out err rc /\ rc <> 0)) ->
  (ConfigHelper_write query s).1 = Ok false.
Proof.
  intros h o Hm H. rewrite ConfigHelper_write_eq. fold h. rewrite Hm. fold o.
  destruct H as [[e ->]|(out & err & rc & -> & H)]; [done|].
  apply Z.eqb_neq in H. by rewrite H.
Qed.

(** C9, the defect.  [write] creates the workspace directory before
    its [try]; where the directory cannot be created the exception of
    [os.makedirs] leaves [write] instead of being reported as [False]. *)
Theorem ConfigHelper_write_raises :
  (ConfigHelper_write (u ".pac_server_port = 8080")
     (boot (sample_host (always [] 0) mkdirs_denied))).1
  = Raise (mk_exn PermissionError (u "[Errno 13] Permission denied")).
Proof. reflexivity. Qed.
End ConfigStore.

(** ** The icon resolver *)

Section IconResolver.
Context (db : UnicodeDB).

Definition cache_dir (h : Host) : pystr := h_expanduser h (u "~/.cache/susops/icons").

Definition png_path (h : Host) (style_name state_name variant : pystr) : pystr :=
  path_join (cache_dir h)
    [style_name ++ u "_" ++ state_name ++ u "_" ++ variant ++ u ".png"].

(** The tail of the resolver, by what the host answers: the cached
    raster when it exists or can be made, the fallback when the
    conversion fails, and the exception of [os.makedirs] when the cache
    directory cannot be created. *)
Lemma convert_to_png_eq (svg style_name state_name variant : pystr) (s : Sys) :
  let h := host s in
  let png := png_path h style_name state_name variant in
  (convert_to_png h svg style_name state_name variant s).1 =
    match h_makedirs h (clock s) (cache_dir h) with
    | Some e => Raise e
    | None =>
        if h_exists h (S (clock s)) png then Ok png
        else match h_svg_to_png h (S (S (clock s))) svg png with
             | None => Ok png
             | Some _ => Ok (ICON_PATH h)
             end
    end.
Proof.
  unfold convert_to_png, os_makedirs, os_path_exists, svg_to_png, png_path, cache_dir.
  munfold. simpl.
  destruct (h_makedirs _ _ _); simpl; [done|].
  destruct (h_exists _ _ _); simpl; [done|].
  by destruct (h_svg_to_png _ _ _ _).
Qed.

(** No icons directory: the fallback. *)
Lemma state_icon_path_no_icons_dir state_name logo_style (s : Sys) :
  _ICONS_DIR (host s) = None ->
  (_state_icon_path db state_name logo_style s).1 = Ok (ICON_PATH (host s)).
Proof. intros H. unfold _state_icon_path. munfold. simpl. by rewrite H. Qed.

(** The asset is missing for the style and for the default style: the
    fallback. *)
Lemma state_icon_path_no_asset state_name logo_style (s : Sys) :
  (forall t p, h_exists (host s) t p = false) ->
  (_state_icon_path db state_name logo_style s).1 = Ok (ICON_PATH (host s)).
Proof.
  intros He. unfold _state_icon_path. munfold. simpl.
  destruct (_ICONS_DIR (host s)) as [d|]; [|done].
  destruct (truthy d); simpl; [|done].
  pose proof (is_dark_theme_total db s) as Ht.
  destruct (is_dark_theme_frames db s) as [Hh _].
  destruct (_is_dark_theme db s) as [[dark|e] s1]; simpl in *; [|done].
  unfold os_path_exists. munfold. simpl.
  rewrite Hh, He. simpl. by rewrite He.
Qed.


(** C8, the defect.  The icons and the asset are there, but the cache
    directory cannot be created: the exception of [os.makedirs] leaves
    the resolver, which returns no icon path at all. *)
Theorem state_icon_path_raises :
  (_state_icon_path basic_db (icon_name RUNNING) (Some GEAR)
     (boot (sample_host (always (u "'prefer-dark'") 0) mkdirs_denied))).1
  = Raise (mk_exn PermissionError (u "[Errno 13] Permission denied")).
Proof. vm_compute. reflexivity. Qed.
End IconResolver.

Example state_icon_path_gear_running :
  (_state_icon_path basic_db (icon_name RUNNING) (Some GEAR)
     (boot (sample_host (always (u "'prefer-dark'") 0) mkdirs_ok))).1
  = Ok (u "/home/user/.cache/susops/icons/gear_running_light.png").
Proof. vm_compute. reflexivity. Qed.

(** ** Applying a state *)

Lemma count_calls_app (p : call -> bool) (l tr : list call) :
  count_calls p (l ++ tr) = (count_calls p l + count_calls p tr)%nat.
Proof. induction l as [|c l IH]; simpl; [done|]. rewrite IH. lia. Qed.

Lemma count_calls_none (p : call -> bool) (P : call -> Prop) (l : list call) :
  (forall c, P c -> p c = false) -> Forall P l -> count_calls p l = 0%nat.
Proof.
  intros HP. induction 1 as [|c l Hc _ IH]; simpl; [done|].
  by rewrite (HP c Hc), IH.
Qed.

Lemma sensitive_skip (P : call -> Prop) (it : menu_item) (l tr : list call) :
  (forall c, P c -> forall it' b, c <> SetSensitive it' b) ->
  Forall P l -> sensitive it (l ++ tr) = sensitive it tr.
Proof.
  intros HP. induction 1 as [|c l Hc _ IH]; simpl; [done|].
  destruct c; try done. by destruct (HP _ Hc it0 b).
Qed.


Section Controller.
Context (db : UnicodeDB).

Lemma current_logo_style_frames : frames eq _current_logo_style.
Proof. unfold _current_logo_style. repeat mstep. Qed.

Ltac mlogs :=
  repeat first
    [ apply frames_do_call; exact I
    | apply frames_eq_logs;
      first [ apply current_logo_style_frames | apply state_icon_path_frames
            | apply os_path_exists_frames | apply os_path_isdir_frames
            | apply run_cmd_frames | apply ConfigHelper_load_app_config_frames ]
    | mstep ].

Lemma update_status_icon_frames st :
  frames (logs icon_call) (_update_status_icon db st).
Proof. unfold _update_status_icon. mlogs. Qed.

Lemma update_tray_icon_frames st :
  frames (logs icon_call) (_update_tray_icon db st).
Proof.
  unfold _update_tray_icon.
  repeat first [ apply update_status_icon_frames | mlogs ].
Qed.

Lemma update_tray_icon_total st : total (_update_tray_icon db st).
Proof. unfold _update_tray_icon. repeat mstep. Qed.

(** The five [set_sensitive] calls of [_apply_state], last one first. *)
Definition sensitivity_calls (st : ProcessState) : list call :=
  let running := bool_decide (st = RUNNING) in
  let partial := bool_decide (st = STOPPED_PARTIALLY) in
  let error := bool_decide (st = ERROR) in
  [ SetSensitive TestAllItem (running || partial);
    SetSensitive TestAnyItem (running || partial);
    SetSensitive RestartItem (running || partial);
    SetSensitive StopItem (running || partial);
    SetSensitive StartItem (negb running && negb error) ].

(** [s'] is [s] after one full update for [st]: the label, the icon,
    the five menu items, and the committed state. *)
Definition updated (st : ProcessState) (s s' : Sys) : Prop :=
  host s' = host s /\
  _state (app s') = st /\
  config (app s') = config (app s) /\
  pending (app s') = pending (app s) /\
  startup_source (app s') = startup_source (app s) /\
  exists icons, Forall icon_call icons /\
    trace (app s') =
      sensitivity_calls st ++ icons ++
      [ShowAll; SetMarkup (status_markup st)] ++ trace (app s).

Lemma apply_state_same (st : ProcessState) (s : Sys) :
  _state (app s) = st -> _apply_state db st s = (Ok tt, s).
Proof.
  intros H. unfold _apply_state. munfold. simpl.
  destruct (decide (st = _state (app s))); [done | congruence].
Qed.

Lemma apply_state_other (st : ProcessState) (s : Sys) :
  _state (app s) <> st ->
  (_apply_state db st s).1 = Ok tt /\ updated st s (_apply_state db st s).2.
Proof.
  intros H. unfold _apply_state. munfold. simpl.
  destruct (decide (st = _state (app s))); [congruence|].
  match goal with |- context [_update_tray_icon db st ?s0] => set (sm := s0) end.
  pose proof (update_tray_icon_total st sm) as Ht.
  destruct (update_tray_icon_frames st sm) as (Hh & H1 & H2 & H3 & H4 & icons & Htr & Hic).
  destruct (_update_tray_icon db st sm) as [[[]|e] s1]; simpl in *; [|done].
  split; [done|]. unfold updated. simpl.
  repeat split; try done.
  exists icons. split; [done|]. by rewrite Htr.
Qed.

Lemma apply_state_total st : total (_apply_state db st).
Proof.
  intros s. destruct (decide (_state (app s) = st)) as [H|H].
  - by rewrite apply_state_same.
  - by destruct (apply_state_other st s H) as [-> _].
Qed.

Lemma apply_state_state (st : ProcessState) (s : Sys) :
  _state (app (_apply_state db st s).2) = st.
Proof.
  destruct (decide (_state (app s) = st)) as [H|H].
  - by rewrite apply_state_same.
  - by destruct (apply_state_other st s H) as (_ & _ & ? & _).
Qed.

Lemma updated_sensitive (st : ProcessState) (s s' : Sys) (it : menu_item) :
  updated st s s' ->
  sensitive it (trace (app s')) =
    match it with
    | StartItem => negb (bool_decide (st = RUNNING)) && negb (bool_decide (st = ERROR))
    | _ => bool_decide (st = RUNNING) || bool_decide (st = STOPPED_PARTIALLY)
    end.
Proof.
  intros (_ & _ & _ & _ & _ & icons & _ & ->). by destruct it.
Qed.


Lemma updated_count (p : call -> bool) (st : ProcessState) (s s' : Sys) :
  (forall c, icon_call c -> p c = false) -> p ShowAll = false ->
  updated st s s' ->
  count_calls p (trace (app s')) =
    (count_calls p (sensitivity_calls st) + count_calls p [SetMarkup (status_markup st)]
     + count_calls p (trace (app s)))%nat.
Proof.
  intros Hp Hs (_ & _ & _ & _ & _ & icons & Hic & ->).
  rewrite !count_calls_app, (count_calls_none p icon_call icons Hp Hic).
  simpl. rewrite Hs. lia.
Qed.
End Controller.

(** ** How often the icon changes *)






Section Icon.
Context (db : UnicodeDB).
















End Icon.

Section ControllerProperties.
Context (db : UnicodeDB).





(** ** After a proxy command *)

(** The status query issued by [_poll]. *)
Definition ps_poll : invocation := mk_inv (u "ps") CbOnPollResult 10.

Lemma sensitive_alert it title body t tr :
  sensitive it (Alert title body t :: tr) = sensitive it tr.
Proof. done. Qed.

End ControllerProperties.

(** ** The startup check and the welcome dialog *)

(** The application keeps its startup source and shows no welcome
    dialog. *)
Definition quiet (a a' : App) : Prop :=
  startup_source a' = startup_source a /\
  welcome_count (trace a') = welcome_count (trace a).

Global Instance quiet_refl : Reflexive quiet.
Proof. by intros a. Qed.

Global Instance quiet_trans : Transitive quiet.
Proof. intros a b c [H1 H2] [H1' H2']. split; congruence. Qed.

Lemma frames_quiet_call (c : call) : is_welcome c = false -> frames quiet (do_call c).
Proof.
  intros Hc s. split; [done|]. split; [done|].
  unfold welcome_count. simpl. by rewrite Hc.
Qed.

Lemma frames_quiet_eq {A} (m : M A) : frames eq m -> frames quiet m.
Proof. apply frames_mono. by intros a ? <-. Qed.

Fixpoint count_startups (evs : list event) : nat :=
  match evs with
  | [] => 0
  | EvStartupCheck :: evs' => S (count_startups evs')
  | _ :: evs' => count_startups evs'
  end.

Section Startup.
Context (db : UnicodeDB).

(** What the status query of the startup check returns in [s]. *)
Definition startup_query (s : Sys) : pystr * Z :=
  run_cmd_result
    (h_subprocess_run (host s) (clock s) (_build_cmd (host s) (u "ps")) 10).

(** The condition of the welcome dialog on that result. *)
Definition first_run (s : Sys) : bool :=
  bool_decide (_rc_to_state (startup_query s).2 = ERROR)
  && str_in (u "no default connection found") (startup_query s).1.

Lemma apply_state_quiet st : frames quiet (_apply_state db st).
Proof.
  intros s. destruct (decide (_state (app s) = st)) as [H|H].
  - by rewrite apply_state_same.
  - destruct (apply_state_other db st s H) as [_ Hup].
    pose proof (updated_count is_welcome st s _ (fun c => ltac:(by destruct c))
                  eq_refl Hup) as Hc.
    destruct Hup as (Hh & _ & _ & _ & Hsrc & _).
    split; [done|]. split; [done|]. unfold welcome_count. by rewrite Hc.
Qed.

Ltac mquiet :=
  repeat first
    [ apply apply_state_quiet
    | apply frames_quiet_call; reflexivity
    | apply frames_modify; intros ?; by split
    | apply frames_quiet_eq;
      first [ apply run_cmd_frames | apply ConfigHelper_load_app_config_frames ]
    | mstep ].

Lemma poll_quiet : frames quiet _poll.
Proof. unfold _poll, run_async. mquiet. Qed.

Lemma on_poll_result_quiet out rc : frames quiet (_on_poll_result db out rc).
Proof. unfold _on_poll_result. mquiet. Qed.

Lemma after_proxy_cmd_quiet out rc : frames quiet (_after_proxy_cmd out rc).
Proof. unfold _after_proxy_cmd, _alert. repeat first [apply poll_quiet | mquiet]. Qed.

Lemma on_start_quiet : frames quiet _on_start.
Proof. unfold _on_start, run_async. mquiet. Qed.

Lemma on_stop_quiet : frames quiet _on_stop.
Proof. unfold _on_stop, run_async. mquiet. Qed.

Lemma on_restart_quiet : frames quiet (_on_restart db).
Proof. unfold _on_restart, run_async. mquiet. Qed.

Lemma worker_quiet inv : frames quiet (worker db inv).
Proof.
  unfold worker, deliver.
  repeat first [apply on_poll_result_quiet | apply after_proxy_cmd_quiet | mquiet].
Qed.

(** Every dispatch but the startup check is quiet. *)
Lemma step_quiet (e : event) (s : Sys) (r : Res unit) (s' : Sys) :
  e <> EvStartupCheck -> step db e s = Some (r, s') -> quiet (app s) (app s').
Proof.
  intros He Hs.
  assert (forall m : M unit, frames quiet m -> Some (m s) = Some (r, s') ->
                             quiet (app s) (app s')) as Hm.
  { intros m Hq [= E]. destruct (Hq s) as [_ H]. by rewrite E in H. }
  destruct e; unfold step in Hs; [done| | | | |].
  - refine (Hm _ _ Hs). repeat first [apply poll_quiet | mquiet].
  - destruct (pending (app s) !! i) as [inv|]; [|done].
    refine (Hm _ _ Hs). repeat first [apply worker_quiet | mquiet].
  - destruct (sensitive _ _); [|done]. apply (Hm _ on_start_quiet Hs).
  - destruct (sensitive _ _); [|done]. apply (Hm _ on_stop_quiet Hs).
  - destruct (sensitive _ _); [|done]. apply (Hm _ on_restart_quiet Hs).
Qed.

(** The startup check: it returns [False], so its source is removed;
    the classified state is committed; the welcome dialog is shown on
    the first-run condition and only then. *)
Lemma step_startup (s : Sys) :
  startup_source (app s) = true ->
  exists sq,
    step db EvStartupCheck s = Some (Ok tt, sq) /\
    startup_source (app sq) = false /\
    _state (app sq) = _rc_to_state (startup_query s).2 /\
    welcome_count (trace (app sq)) =
      (welcome_count (trace (app s)) + if first_run s then 1 else 0)%nat.
Proof.
  intros Hsrc. unfold step. rewrite Hsrc.
  unfold _startup_check, first_run, startup_query, _show_welcome. munfold.
  rewrite run_cmd_eq.
  destruct (run_cmd_result _) as [out rc] eqn:Eq. simpl.
  match goal with |- context [_apply_state db _ ?s0] => set (sm := s0) end.
  pose proof (apply_state_total db (_rc_to_state rc) sm) as Ht.
  pose proof (apply_state_state db (_rc_to_state rc) sm) as Hst.
  destruct (apply_state_quiet (_rc_to_state rc) sm) as (_ & _ & Hw).
  destruct (_apply_state db (_rc_to_state rc) sm) as [[[]|e] s1]; simpl in *; [|done].
  destruct (bool_decide (_rc_to_state rc = ERROR) && str_in _ out); simpl.
  - eexists. split; [done|]. simpl. repeat split; [done|].
    unfold welcome_count in *. simpl. rewrite Hw. lia.
  - eexists. split; [done|]. simpl. repeat split; [done|].
    unfold welcome_count in *. rewrite Hw. lia.
Qed.

Lemma step_startup_gone (s : Sys) :
  startup_source (app s) = false -> step db EvStartupCheck s = None.
Proof. intros H. simpl. by rewrite H. Qed.

Lemma run_app (pre post : list event) (s : Sys) :
  run db (pre ++ post) s =
    match run db pre s with
    | Some s' => run db post s'
    | None => None
    end.
Proof.
  revert s. induction pre as [|e pre IH]; intros s; simpl; [done|].
  destruct (step db e s) as [[r s']|]; [apply IH | done].
Qed.

(** While the source is attached, no check has run and no dialog has
    been shown. *)
Lemma run_source_attached (evs : list event) : forall s0 s,
  run db evs s0 = Some s ->
  startup_source (app s) = true ->
  count_startups evs = 0%nat /\ quiet (app s0) (app s).
Proof.
  induction evs as [|e evs IH]; intros s0 s Hrun Hsrc; simpl in Hrun.
  - injection Hrun as <-. by split.
  - destruct (step db e s0) as [[r s1]|] eqn:Hs; [|done].
    destruct (IH s1 s Hrun Hsrc) as [Hc Hq].
    destruct (decide (e = EvStartupCheck)) as [->|He].
    + exfalso. destruct (startup_source (app s0)) eqn:Hs0.
      * destruct (step_startup s0 Hs0) as (sq & Hsq & Hgone & _).
        rewrite Hs in Hsq. injection Hsq as _ <-.
        destruct Hq as [Hq _]. congruence.
      * by rewrite step_startup_gone in Hs.
    + split; [by destruct e | ].
      etrans; [eapply step_quiet; eauto | done].
Qed.

(** Once the source is gone, no check runs and no dialog is shown. *)
Lemma run_source_gone (evs : list event) : forall s0 s,
  startup_source (app s0) = false ->
  run db evs s0 = Some s ->
  count_startups evs = 0%nat /\ quiet (app s0) (app s).
Proof.
  induction evs as [|e evs IH]; intros s0 s Hsrc Hrun; simpl in Hrun.
  - injection Hrun as <-. by split.
  - destruct (step db e s0) as [[r s1]|] eqn:Hs; [|done].
    destruct (decide (e = EvStartupCheck)) as [->|He].
    + by rewrite step_startup_gone in Hs.
    + pose proof (step_quiet e s0 r s1 He Hs) as Hq.
      destruct (IH s1 s) as [Hc Hq']; [destruct Hq; congruence | done |].
      split; [by destruct e | by etrans].
Qed.
End Startup.

Section StartupOnce.
Context (db : UnicodeDB).

Lemma count_startups_app (pre post : list event) :
  count_startups (pre ++ post) = (count_startups pre + count_startups post)%nat.
Proof.
  induction pre as [|e pre IH]; simpl; [done|]. destruct e; simpl; lia.
Qed.

(** Without a startup check in it, a run is quiet. *)
Lemma run_without_startup (evs : list event) : forall s0 s,
  run db evs s0 = Some s -> count_startups evs = 0%nat -> quiet (app s0) (app s).
Proof.
  induction evs as [|e evs IH]; intros s0 s Hrun Hc; simpl in Hrun.
  - by injection Hrun as <-.
  - destruct (step db e s0) as [[r s1]|] eqn:Hs; [|done].
    assert (e <> EvStartupCheck) as He by (intros ->; discriminate).
    etrans; [eapply step_quiet; eauto|].
    apply IH; [done|]. by destruct e.
Qed.

(** The check runs at most as often as its source is attached. *)
Lemma run_count_startups (evs : list event) : forall s0 s,
  run db evs s0 = Some s ->
  (count_startups evs <= if startup_source (app s0) then 1 else 0)%nat.
Proof.
  induction evs as [|e evs IH]; intros s0 s Hrun; simpl in Hrun.
  - simpl. destruct (startup_source _); lia.
  - destruct (step db e s0) as [[r s1]|] eqn:Hs; [|done].
    specialize (IH s1 s Hrun).
    destruct (decide (e = EvStartupCheck)) as [->|He].
    + destruct (startup_source (app s0)) eqn:Hs0.
      * destruct (step_startup db s0 Hs0) as (sq & Hsq & Hgone & _).
        rewrite Hs in Hsq. injection Hsq as _ <-.
        rewrite Hgone in IH. simpl. lia.
      * by rewrite step_startup_gone in Hs.
    + destruct (step_quiet db e s0 r s1 He Hs) as [<- _].
      by destruct e.
Qed.

(** C7. Started with its startup source attached, the application runs
    the startup check at most once in any run of the main loop; until
    then the source stays attached and no welcome dialog appears; when
    the check runs, its source is removed, the state classified from
    its query is committed (ERROR on the first-run condition), and from
    then on the number of welcome dialogs shown is one if the query of
    that check classified to ERROR with the signature in its text, and
    zero otherwise, whatever is dispatched afterwards. *)
Theorem startup_check_once (s0 : Sys) (evs : list event) (s : Sys) :
  startup_source (app s0) = true ->
  run db evs s0 = Some s ->
  (count_startups evs <= 1)%nat /\
  (count_startups evs = 0%nat ->
     startup_source (app s) = true /\
     welcome_count (trace (app s)) = welcome_count (trace (app s0))) /\
  (forall pre post sp,
     evs = pre ++ EvStartupCheck :: post ->
     run db pre s0 = Some sp ->
     count_startups evs = 1%nat /\
     startup_source (app s) = false /\
     (exists sq,
        step db EvStartupCheck sp = Some (Ok tt, sq) /\
        _state (app sq) = _rc_to_state (startup_query sp).2 /\
        (first_run sp = true -> _state (app sq) = ERROR)) /\
     welcome_count (trace (app s)) =
       (welcome_count (trace (app s0)) + if first_run sp then 1 else 0)%nat).
Proof.
  intros Hsrc Hrun. split; [|split].
  - pose proof (run_count_startups evs s0 s Hrun) as H. by rewrite Hsrc in H.
  - intros Hc. destruct (run_without_startup evs s0 s Hrun Hc) as [H1 H2].
    split; congruence.
  - intros pre post sp -> Hpre.
    rewrite run_app, Hpre in Hrun. cbn [run] in Hrun.
    destruct (step db EvStartupCheck sp) as [[r sq']|] eqn:Hs; [|done].
    assert (startup_source (app sp) = true) as Hsp.
    { destruct (startup_source (app sp)) eqn:E; [done|].
      by rewrite step_startup_gone in Hs. }
    destruct (run_source_attached db pre s0 sp Hpre Hsp) as [Hcpre [_ Hwpre]].
    destruct (step_startup db sp Hsp) as (sq & Hsq & Hgone & Hst & Hw).
    rewrite Hs in Hsq. injection Hsq as -> ->.
    destruct (run_source_gone db post sq s Hgone Hrun) as [Hcpost [Hsrc' Hwpost]].
    split; [|split; [|split]].
    + rewrite count_startups_app. simpl. lia.
    + congruence.
    + exists sq. split; [done|]. split; [done|].
      intros Hf. rewrite Hst. unfold first_run in Hf.
      apply andb_true_iff in Hf as [Hf _]. by apply bool_decide_eq_true in Hf.
    + congruence.
Qed.
End StartupOnce.

(** ** The constructor *)

Lemma bind_ok {A B} (m : M A) (f : A -> M B) (s : Sys) (b : B) (s' : Sys) :
  (m ≫= f) s = (Ok b, s') ->
  exists a s1, m s = (Ok a, s1) /\ f a s1 = (Ok b, s').
Proof.
  munfold. destruct (m s) as [[a|e] s1]; [|done]. intros H. by exists a, s1.
Qed.

Lemma logs_mono (P Q : call -> Prop) (a a' : App) :
  (forall c, P c -> Q c) -> logs P a a' -> logs Q a a'.
Proof.
  intros HPQ (H1 & H2 & H3 & H4 & l & Hl & HP). repeat split; try done.
  exists l. split; [done|]. eapply Forall_impl; eauto.
Qed.

Section Constructor.
Context (db : UnicodeDB).

Definition not_welcome (c : call) : Prop := is_welcome c = false.

Lemma setup_indicator_frames : frames (logs not_welcome) (_setup_indicator db).
Proof.
  unfold _setup_indicator.
  repeat first
    [ apply frames_do_call; reflexivity
    | eapply frames_mono;
      [ | apply update_status_icon_frames ];
      intros ? ?; apply logs_mono; by intros []
    | apply frames_eq_logs;
      first [ apply current_logo_style_frames | apply state_icon_path_frames
            | apply os_path_isdir_frames ]
    | mstep ].
Qed.

(** A constructor that returns leaves the state INITIAL, the startup
    source attached and no welcome dialog shown. *)
Lemma init_attaches_startup (s : Sys) :
  (SusOpsApp_init db s).1 = Ok tt ->
  let s' := (SusOpsApp_init db s).2 in
  host s' = host s /\
  _state (app s') = INITIAL /\
  startup_source (app s') = true /\
  pending (app s') = pending (app s) /\
  welcome_count (trace (app s')) = welcome_count (trace (app s)).
Proof.
  destruct (SusOpsApp_init db s) as [r s'] eqn:E. simpl. intros ->.
  unfold SusOpsApp_init in E.
  apply bind_ok in E as ([] & s1 & E1 & E).
  apply bind_ok in E as (cfg & s2 & E2 & E).
  apply bind_ok in E as ([] & s3 & E3 & E).
  apply bind_ok in E as ([] & s4 & E4 & E).
  apply bind_ok in E as ([] & s5 & E5 & E).
  injection E1 as <-. injection E3 as <-. injection E4 as <-. injection E as <-.
  destruct (ConfigHelper_load_app_config_frames db
              {| host := host s; clock := clock s; app := set_state INITIAL (app s) |})
    as [Hh2 Ha2].
  rewrite E2 in Hh2, Ha2. simpl in Hh2, Ha2.
  match type of E5 with _ ?s0 = _ => destruct (setup_indicator_frames s0) as [Hh5 Ha5] end.
  rewrite E5 in Hh5, Ha5. simpl in Hh5, Ha5.
  destruct Ha5 as (H1 & H2 & H3 & H4 & l & Hl & HP). simpl in *.
  rewrite <- Ha2 in *. simpl in *.
  repeat split; try congruence.
  unfold welcome_count. rewrite Hl, count_calls_app.
  by rewrite (count_calls_none is_welcome not_welcome l).
Qed.
End Constructor.

(** ** A first run, end to end *)

(** A desktop on which susops has no connection configured yet. *)
Definition first_run_host : Host :=
  sample_host (always (u "Error: no default connection found") 9) mkdirs_ok.

(** The application as constructed on that desktop. *)
Definition first_run_start : Sys := (SusOpsApp_init basic_db (boot first_run_host)).2.

Definition first_run_events : list event :=
  [EvPollTimer; EvStartupCheck; EvWorkerDone 0; EvPollTimer].

Definition first_run_end : Sys :=
  default first_run_start (run basic_db first_run_events first_run_start).

Example first_run_constructed :
  (SusOpsApp_init basic_db (boot first_run_host)).1 = Ok tt.
Proof. vm_compute. reflexivity. Qed.

Example first_run_shows_welcome :
  welcome_count (trace (app first_run_end)) = 1%nat /\
  _state (app first_run_end) = ERROR /\
  sensitive StartItem (trace (app first_run_end)) = false.
Proof. vm_compute. done. Qed.

Lemma startup_check_once_witness :
  count_startups first_run_events = 1%nat /\
  startup_source (app first_run_end) = false /\
  welcome_count (trace (app first_run_end)) = 1%nat.
Proof.
  assert (startup_source (app first_run_start) = true) as Hsrc by (vm_compute; reflexivity).
  assert (run basic_db first_run_events first_run_start = Some first_run_end) as Hrun
    by (vm_compute; reflexivity).
  destruct (startup_check_once basic_db first_run_start first_run_events first_run_end
              Hsrc Hrun) as (_ & _ & H).
  destruct (H [EvPollTimer] [EvWorkerDone 0; EvPollTimer]
              (default first_run_start (run basic_db [EvPollTimer] first_run_start))
              eq_refl ltac:(vm_compute; reflexivity)) as (H1 & H2 & _ & H4).
  split; [exact H1|]. split; [exact H2|].
  rewrite H4. vm_compute. reflexivity.
Defined.




(** ** Who registers [_after_proxy_cmd] *)

Section Handlers.
Context (db : UnicodeDB).

(** Each of the three handlers starts exactly one worker, and its
    callback is [_after_proxy_cmd]. *)
Lemma on_start_registers (s : Sys) :
  pending (app (_on_start s).2) =
    pending (app s) ++ [mk_inv (u "start") CbAfterProxyCmd 60].
Proof. reflexivity. Qed.

Lemma on_stop_registers (s : Sys) :
  exists args,
    pending (app (_on_stop s).2) = pending (app s) ++ [mk_inv args CbAfterProxyCmd 30] /\
    (args = u "stop" \/ args = u "stop --keep-ports").
Proof.
  unfold _on_stop, run_async. munfold. simpl.
  destruct (negb _).
  - exists (u "stop --keep-ports"). split; [|by right]. by vm_compute.
  - exists (u "stop"). split; [|by left]. by vm_compute.
Qed.

Lemma on_restart_registers (s : Sys) :
  pending (app (_on_restart db s).2) =
    pending (app s) ++ [mk_inv (u "restart") CbAfterProxyCmd 60].
Proof.
  unfold _on_restart, run_async. munfold.
  destruct (ConfigHelper_load_app_config_frames db s) as [_ Ha].
  destruct (ConfigHelper_load_app_config db s) as [[cfg|e] s1] eqn:E; simpl in *.
  - by rewrite <- Ha.
  - exfalso. revert E. unfold ConfigHelper_load_app_config. munfold.
    repeat match goal with
           | |- context [ConfigHelper_read ?q ?d ?s0] =>
               let H := fresh in
               pose proof (ConfigHelper_read_total q d s0) as H;
               destruct (ConfigHelper_read q d s0) as [[?|?] ?]; simpl in H; [|done]
           end.
    done.
Qed.

(** The worker of such a command ends in [_after_proxy_cmd], whatever
    the command printed and returned. *)
Lemma worker_after_proxy_cmd (args : pystr) (timeout : Z) (s : Sys) :
  exists out rc,
    (run_cmd args timeout s).1 = Ok (out, rc) /\
    worker db (mk_inv args CbAfterProxyCmd timeout) s =
      _after_proxy_cmd out rc (run_cmd args timeout s).2.
Proof.
  unfold worker. munfold. rewrite !run_cmd_eq. simpl.
  destruct (run_cmd_result _) as [out rc]. by exists out, rc.
Qed.
End Handlers.

(** ** Starting the proxy, end to end *)

(** A desktop where susops is stopped until [start] has run: the status
    query answers 3 up to instant 21 and 0 from instant 22 on. *)
Definition start_host : Host :=
  sample_host
    (fun t argv _ =>
       if bool_decide (u "ps" ∈ argv) then
         if (t <? 22)%nat then Completed (u "stopped") [] 3
         else Completed (u "running") [] 0
       else if bool_decide (u "start" ∈ argv) then Completed (u "started") [] 0
       else Completed (u "'default'") [] 0)
    mkdirs_ok.

Definition start_begin : Sys := (SusOpsApp_init basic_db (boot start_host)).2.

Definition shown (s : Sys) : ProcessState * option pystr * (bool * bool * bool) :=
  (_state (app s), markup (trace (app s)),
   (sensitive StartItem (trace (app s)), sensitive StopItem (trace (app s)),
    sensitive RestartItem (trace (app s)))).

(** The startup check finds the proxy stopped. *)
Example start_scenario_stopped :
  shown <$> run basic_db [EvStartupCheck] start_begin
  = Some (STOPPED, Some (status_markup STOPPED), (true, false, false)).
Proof. vm_compute. reflexivity. Qed.

(** The click disables Start at once. *)
Example start_scenario_clicked :
  shown <$> run basic_db [EvStartupCheck; EvStart] start_begin
  = Some (STOPPED, Some (progress_markup (u "starting")), (false, false, false)).
Proof. vm_compute. reflexivity. Qed.

(** [start] exits with 0: the state is reset and one query is pending. *)
Example start_scenario_completed :
  (fun s => (_state (app s), pending (app s)))
    <$> run basic_db [EvStartupCheck; EvStart; EvWorkerDone 0] start_begin
  = Some (INITIAL, [ps_poll]).
Proof. vm_compute. reflexivity. Qed.

(** The query answers 0: RUNNING, Start disabled, Stop and Restart
    enabled. *)
Example start_scenario_running :
  shown <$> run basic_db [EvStartupCheck; EvStart; EvWorkerDone 0; EvWorkerDone 0]
              start_begin
  = Some (RUNNING, Some (status_markup RUNNING), (false, true, true)).
Proof. vm_compute. reflexivity. Qed.

(** A second click on Start cannot be dispatched while the first is on
    its way. *)
Example start_scenario_no_double_click :
  run basic_db [EvStartupCheck; EvStart; EvStart] start_begin = None.
Proof. vm_compute. reflexivity. Qed.

(** While [start] is on its way the poll timer fires and its query is
    answered first, still with 3: STOPPED is applied over STOPPED, and
    Start stays disabled. *)
Example start_scenario_poll_in_between :
  shown <$> run basic_db [EvStartupCheck; EvStart; EvPollTimer; EvWorkerDone 1]
              start_begin
  = Some (STOPPED, Some (progress_markup (u "starting")), (false, false, false)).
Proof. vm_compute. reflexivity. Qed.



(** ** Further facts *)

(** A digit without a decimal value passes [isdigit] and makes [int]
    raise: on the superscript two the validator raises [ValueError]; it
    does not accept the string. *)
Example is_valid_port_superscript :
  is_valid_port basic_db [178%N]
  = Raise (mk_exn ValueError (u "invalid literal for int() with base 10")).
Proof. reflexivity. Qed.

(** Wherever the asset is found and the cache directory cannot be
    created, the resolver raises. *)
Lemma state_icon_path_makedirs_denied (db : UnicodeDB) (state_name : pystr)
    (logo_style : option LogoStyle) (s : Sys) (d : pystr) (e : exn) :
  _ICONS_DIR (host s) = Some d -> truthy d = true ->
  (forall t p, h_exists (host s) t p = true) ->
  (forall t p, h_makedirs (host s) t p = Some e) ->
  (_state_icon_path db state_name logo_style s).1 = Raise e.
Proof.
  intros Hd Ht He Hm. unfold _state_icon_path. munfold. simpl.
  rewrite Hd, Ht. simpl.
  pose proof (is_dark_theme_total db s) as Htot.
  destruct (is_dark_theme_frames db s) as [Hh _].
  destruct (_is_dark_theme db s) as [[dark|e'] s1]; simpl in *; [|done].
  unfold os_path_exists, convert_to_png, os_makedirs. munfold. simpl.
  rewrite Hh, He. simpl. by rewrite Hm.
Qed.

(** In the main loop: when the worker of a start, stop or restart
    command finishes, the state is INITIAL and exactly one status query
    has joined the pending workers. *)
Lemma step_proxy_cmd_done (db : UnicodeDB) (i : nat) (inv : invocation) (s : Sys) :
  pending (app s) !! i = Some inv ->
  inv_callback inv = CbAfterProxyCmd ->
  exists s1,
    step db (EvWorkerDone i) s = Some (Ok tt, s1) /\
    pending (app s1) = delete i (pending (app s)) ++ [ps_poll] /\
    _state (app s1) = INITIAL.
Proof.
  intros Hi Hcb. unfold step. rewrite Hi.
  unfold worker, deliver. rewrite Hcb. munfold. rewrite !run_cmd_eq. simpl.
  destruct (run_cmd_result _) as [out rc].
  unfold _after_proxy_cmd, _poll, run_async, _alert. munfold. simpl.
  destruct (negb (rc =? 0) && truthy out); eexists; by repeat split.
Qed.

(* ===================================================================== *)
(** * Words, lines and command lines *)
(* ===================================================================== *)

(** A word as [str.split] yields it: not empty, no whitespace in it. *)
Definition clean_word (w : pystr) : Prop :=
  w <> [] /\ Forall (fun c => isspace_cp c = false) w.

(** A string without whitespace at either end. *)
Definition trimmed (s : pystr) : Prop :=
  (forall c, head s = Some c -> isspace_cp c = false) /\
  (forall c, last s = Some c -> isspace_cp c = false).

(** The program the commands are run with: the bundled script when one
    was found, the [susops] of the search path otherwise. *)
Definition susops_exe (h : Host) : pystr :=
  match SUSOPS_SH h with
  | Some sh => if truthy sh then sh else u "susops"
  | None => u "susops"
  end.

Lemma split_aux_clean (s : pystr) : forall cur,
  Forall (fun c => isspace_cp c = false) cur ->
  Forall clean_word (split_aux cur s).
Proof.
  induction s as [|c s IH]; intros cur Hcur; simpl.
  - destruct cur as [|c' cur']; [constructor|].
    constructor; [|constructor]. split.
    + simpl. intros E. by apply app_eq_nil in E as [_ ?].
    + by apply Forall_rev.
  - destruct (isspace_cp c) eqn:Hc.
    + destruct cur as [|c' cur']; [by apply IH|].
      constructor; [|by apply IH]. split.
      * simpl. intros E. by apply app_eq_nil in E as [_ ?].
      * by apply Forall_rev.
    + apply IH. by constructor.
Qed.

Lemma split_clean (s : pystr) : Forall clean_word (split s).
Proof. apply split_aux_clean. constructor. Qed.

Lemma split_aux_space (a b : pystr) : forall cur,
  split_aux cur (a ++ 32%N :: b) = split_aux cur a ++ split b.
Proof.
  induction a as [|c a IH]; intros cur; simpl.
  - by destruct cur.
  - destruct (isspace_cp c); [|apply IH].
    destruct cur; [apply IH|]. simpl. by rewrite IH.
Qed.

Lemma split_aux_word (w : pystr) : forall cur,
  Forall (fun c => isspace_cp c = false) w ->
  split_aux cur w = match rev w ++ cur with [] => [] | l => [rev l] end.
Proof.
  induction w as [|c w IH]; intros cur Hw; simpl; [by destruct cur|].
  inversion Hw as [|? ? Hc Hw']; subst. rewrite Hc, (IH _ Hw'). simpl.
  by rewrite <- app_assoc.
Qed.

Lemma split_word (w : pystr) : clean_word w -> split w = [w].
Proof.
  intros [Hne Hw]. unfold split. rewrite (split_aux_word w [] Hw), app_nil_r.
  destruct (rev w) eqn:E.
  - apply (f_equal (@rev N)) in E. rewrite rev_involutive in E. done.
  - by rewrite <- E, rev_involutive.
Qed.

Lemma build_cmd_eq (h : Host) (susops_args : pystr) :
  _build_cmd h susops_args = susops_exe h :: split susops_args.
Proof.
  unfold _build_cmd, susops_exe.
  destruct (SUSOPS_SH h) as [sh|]; [|done]. by destruct (truthy sh).
Qed.

(** X1. Whatever the argument string, the command line starts with the
    program and every further argument is a non-empty word without
    whitespace: blanks only separate, and nothing else (no quote, no
    backslash) is interpreted. *)
Theorem build_cmd_words (h : Host) (susops_args : pystr) :
  exists ws,
    _build_cmd h susops_args = susops_exe h :: ws /\
    ws = split susops_args /\
    Forall clean_word ws.
Proof.
  exists (split susops_args). split; [apply build_cmd_eq|].
  split; [done | apply split_clean].
Qed.

(** X2. Text appended after a blank adds exactly its own words to the
    command line, and a clean word adds itself: the command line of
    [a + ' ' + b] is the one of [a] followed by the words of [b]. *)
Theorem build_cmd_append (h : Host) (a b : pystr) :
  _build_cmd h (a ++ u " " ++ b) = _build_cmd h a ++ split b /\
  (clean_word b -> _build_cmd h (a ++ u " " ++ b) = _build_cmd h a ++ [b]).
Proof.
  assert (_build_cmd h (a ++ u " " ++ b) = _build_cmd h a ++ split b) as H.
  { rewrite !build_cmd_eq. simpl. f_equal. apply (split_aux_space a b []). }
  split; [done|]. intros Hb. by rewrite H, (split_word b Hb).
Qed.

Lemma build_cmd_append_witness :
  _build_cmd (sample_host (always [] 0) mkdirs_ok) (u "test" ++ u " " ++ u "example.org")
  = _build_cmd (sample_host (always [] 0) mkdirs_ok) (u "test") ++ [u "example.org"].
Proof.
  apply (proj2 (build_cmd_append (sample_host (always [] 0) mkdirs_ok)
                  (u "test") (u "example.org"))).
  split; [discriminate|]. vm_compute. repeat constructor.
Defined.

(** ** [strip] *)

Lemma lstrip_head (s : pystr) (c : N) :
  head (lstrip s) = Some c -> isspace_cp c = false.
Proof.
  induction s as [|c' s IH]; simpl; [done|].
  destruct (isspace_cp c') eqn:E; [done|]. simpl. by intros [= <-].
Qed.

Lemma lstrip_suffix (s : pystr) :
  exists p, s = p ++ lstrip s /\ Forall (fun c => isspace_cp c = true) p.
Proof.
  induction s as [|c s (p & Hp & HF)]; simpl; [by exists []|].
  destruct (isspace_cp c) eqn:E.
  - exists (c :: p). split; [by rewrite <- app_comm_cons, <- Hp | by constructor].
  - by exists [].
Qed.

Lemma rstrip_prefix (s : pystr) :
  exists q, s = rstrip s ++ q /\ Forall (fun c => isspace_cp c = true) q.
Proof.
  unfold rstrip. destruct (lstrip_suffix (rev s)) as (p & Hp & HF).
  exists (rev p). split; [|by apply Forall_rev].
  rewrite <- rev_app_distr, <- Hp. by rewrite rev_involutive.
Qed.

Lemma last_rev (l : pystr) : last (rev l) = head l.
Proof. destruct l as [|c l]; [done|]. simpl. by rewrite last_snoc. Qed.

Lemma head_rev (l : pystr) : head (rev l) = last l.
Proof. by rewrite <- (last_rev (rev l)), rev_involutive. Qed.

Lemma rstrip_last (s : pystr) (c : N) :
  last (rstrip s) = Some c -> isspace_cp c = false.
Proof.
  unfold rstrip. rewrite last_rev. apply lstrip_head.
Qed.

Lemma strip_trimmed (s : pystr) : trimmed (strip s).
Proof.
  unfold strip. split; [|apply rstrip_last].
  intros c Hc. destruct (rstrip_prefix (lstrip s)) as (q & Hq & _).
  apply (lstrip_head s). rewrite Hq.
  destruct (rstrip (lstrip s)); [done|]. by simpl in *.
Qed.

Lemma lstrip_trimmed (s : pystr) :
  (forall c, head s = Some c -> isspace_cp c = false) -> lstrip s = s.
Proof.
  destruct s as [|c s]; [done|]. intros H. simpl. by rewrite (H c).
Qed.

Lemma strip_id (s : pystr) : trimmed s -> strip s = s.
Proof.
  intros [Hh Hl]. unfold strip. rewrite (lstrip_trimmed s Hh).
  unfold rstrip. rewrite lstrip_trimmed; [apply rev_involutive|].
  intros c Hc. apply Hl. by rewrite <- head_rev.
Qed.

(** X3. When the child completes, the text of [run_cmd] is the stripped
    standard output, or the stripped standard error when the standard
    output is blank; in both cases it has no whitespace at either end,
    and the exit code is the child's. *)
Theorem run_cmd_completed (args : pystr) (timeout : Z) (s : Sys)
    (stdout stderr : pystr) (returncode : Z) :
  h_subprocess_run (host s) (clock s) (_build_cmd (host s) args) timeout
    = Completed stdout stderr returncode ->
  exists text,
    (run_cmd args timeout s).1 = Ok (text, returncode) /\
    trimmed text /\
    strip text = text /\
    (strip stdout <> [] -> text = strip stdout) /\
    (strip stdout = [] -> text = strip stderr).
Proof.
  intros Ho. rewrite run_cmd_eq. simpl. rewrite Ho. simpl.
  exists (str_or (strip stdout) (strip stderr)).
  assert (trimmed (str_or (strip stdout) (strip stderr))) as Ht.
  { unfold str_or. destruct (truthy _); apply strip_trimmed. }
  split; [done|]. split; [done|]. split; [by apply strip_id|].
  unfold str_or. split.
  - intros Hne. by destruct (strip stdout).
  - by intros ->.
Qed.

Lemma run_cmd_completed_witness :
  exists text,
    (run_cmd (u "ps") 10
       (boot (sample_host (fun _ _ _ => Completed (u "  ") (u " no default connection found ") 1)
                          mkdirs_ok))).1 = Ok (text, 1) /\
    text = u "no default connection found".
Proof.
  destruct (run_cmd_completed (u "ps") 10
              (boot (sample_host
                       (fun _ _ _ => Completed (u "  ") (u " no default connection found ") 1)
                       mkdirs_ok))
              (u "  ") (u " no default connection found ") 1 eq_refl)
    as (text & H1 & _ & _ & _ & H5).
  exists text. split; [exact H1|]. by rewrite H5.
Defined.

(* ===================================================================== *)
(** * The lists read from the configuration *)
(* ===================================================================== *)

(** The characters at which [str.splitlines] breaks a line. *)
Definition islinebreak_cp (c : N) : bool :=
  ((10 <=? c) && (c <=? 13) || (28 <=? c) && (c <=? 30)
   || (c =? 133) || (c =? 8232) || (c =? 8233))%N.

(** [s.splitlines()]: the lines without their terminators; a carriage
    return followed by a line feed is one terminator, and a terminator at
    the very end opens no further line. *)
Fixpoint splitlines_aux (cur : pystr) (s : pystr) : list pystr :=
  match s with
  | [] => match cur with [] => [] | _ => [rev cur] end
  | c :: s' =>
      if islinebreak_cp c then
        rev cur ::
          match s' with
          | c' :: s'' =>
              if ((c =? 13) && (c' =? 10))%N then splitlines_aux [] s''
              else splitlines_aux [] s'
          | [] => splitlines_aux [] s'
          end
      else splitlines_aux (c :: cur) s'
  end.

Definition splitlines (s : pystr) : list pystr := splitlines_aux [] s.

(** [[x for x in out.splitlines() if x]] *)
Definition nonempty_lines (out : pystr) : list pystr :=
  List.filter truthy (splitlines out).

(** [ConfigHelper.get_connection_tags()] *)
Definition ConfigHelper_get_connection_tags : M (list pystr) :=
  out ← ConfigHelper_read (u ".connections[].tag") [];
  mret (nonempty_lines out).

(** [ConfigHelper.get_domains()] *)
Definition ConfigHelper_get_domains : M (list pystr) :=
  out ← ConfigHelper_read (u ".connections[].pac_hosts[]") [];
  mret (nonempty_lines out).

(** The label yq prints for a forward without tag and ports, ['( → )']. *)
Definition empty_forward : pystr := u "( " ++ [8594%N] ++ u " )".

(** The yq expression of the forward lists; the double quotes are code
    point 34 and the arrow is code point 8594. *)
Definition forwards_query (kind : pystr) : pystr :=
  u ".connections[].forwards." ++ kind ++ u "[] | " ++ [34%N]
  ++ u "\(.tag) (\((.src_port // .src)) " ++ [8594%N]
  ++ u " \((.dst_port // .dst)))" ++ [34%N].

(** [[f for f in out.splitlines() if f and f != '( → )']] *)
Definition forward_lines (out : pystr) : list pystr :=
  List.filter (fun f => truthy f && negb (str_eqb f empty_forward)) (splitlines out).

(** [ConfigHelper.get_local_forwards()] *)
Definition ConfigHelper_get_local_forwards : M (list pystr) :=
  out ← ConfigHelper_read (forwards_query (u "local")) [];
  mret (forward_lines out).

(** [ConfigHelper.get_remote_forwards()] *)
Definition ConfigHelper_get_remote_forwards : M (list pystr) :=
  out ← ConfigHelper_read (forwards_query (u "remote")) [];
  mret (forward_lines out).

(** An entry offered in a menu: not empty and on one line. *)
Definition one_line (l : pystr) : Prop :=
  l <> [] /\ Forall (fun c => islinebreak_cp c = false) l.

Lemma splitlines_aux_lines_upto (n : nat) : forall (s cur : pystr),
  (length s <= n)%nat ->
  Forall (fun c => islinebreak_cp c = false) cur ->
  Forall (Forall (fun c => islinebreak_cp c = false)) (splitlines_aux cur s).
Proof.
  induction n as [|n IH]; intros s cur Hn Hcur.
  - destruct s; [|simpl in Hn; lia]. simpl.
    destruct cur; [constructor|]. constructor; [by apply Forall_rev | constructor].
  - destruct s as [|c s]; simpl.
    + destruct cur; [constructor|]. constructor; [by apply Forall_rev | constructor].
    + simpl in Hn. destruct (islinebreak_cp c) eqn:Hc.
      * constructor; [by apply Forall_rev|].
        destruct s as [|c' s'']; [constructor|]. simpl in Hn.
        destruct ((c =? 13) && (c' =? 10))%N; apply IH; simpl; (lia || constructor).
      * apply IH; [lia | by constructor].
Qed.

Lemma splitlines_aux_lines (s : pystr) : forall cur,
  Forall (fun c => islinebreak_cp c = false) cur ->
  Forall (Forall (fun c => islinebreak_cp c = false)) (splitlines_aux cur s).
Proof. intros cur. by apply (splitlines_aux_lines_upto (length s)). Qed.

Lemma nonempty_lines_one_line (out : pystr) : Forall one_line (nonempty_lines out).
Proof.
  unfold nonempty_lines. apply List.Forall_forall. intros l Hl.
  apply filter_In in Hl as [Hin Ht]. split; [by destruct l|].
  pose proof (splitlines_aux_lines out [] ltac:(constructor)) as H.
  rewrite List.Forall_forall in H. by apply H.
Qed.

Lemma forward_lines_one_line (out : pystr) :
  Forall (fun l => one_line l /\ l <> empty_forward) (forward_lines out).
Proof.
  unfold forward_lines. apply List.Forall_forall. intros l Hl.
  apply filter_In in Hl as [Hin Ht]. apply andb_true_iff in Ht as [Ht Hne].
  split; [split; [by destruct l|] |].
  - pose proof (splitlines_aux_lines out [] ltac:(constructor)) as H.
    rewrite List.Forall_forall in H. by apply H.
  - intros ->. unfold str_eqb in Hne. by rewrite bool_decide_eq_true_2 in Hne.
Qed.

Lemma config_missing_read (query default : pystr) (s : Sys) :
  h_exists (host s) (clock s) (CONFIG_PATH (host s)) = false ->
  ConfigHelper_read query default s =
    (Ok default, mk_sys (host s) (S (clock s)) (app s)).
Proof.
  intros H. unfold ConfigHelper_read, os_path_exists. munfold. simpl. by rewrite H.
Qed.

(** X4. The tags and the domains read from the configuration: the call
    never raises, every entry is non-empty and on one line, and without
    a configuration file the list is empty. *)
Theorem config_lists_one_line (s : Sys) :
  (exists tags, (ConfigHelper_get_connection_tags s).1 = Ok tags /\
                Forall one_line tags) /\
  (exists domains, (ConfigHelper_get_domains s).1 = Ok domains /\
                   Forall one_line domains) /\
  (h_exists (host s) (clock s) (CONFIG_PATH (host s)) = false ->
     (ConfigHelper_get_connection_tags s).1 = Ok [] /\
     (ConfigHelper_get_domains s).1 = Ok []).
Proof.
  unfold ConfigHelper_get_connection_tags, ConfigHelper_get_domains. munfold.
  split; [|split].
  - pose proof (ConfigHelper_read_total (u ".connections[].tag") [] s) as Ht.
    destruct (ConfigHelper_read _ _ s) as [[out|e] s1]; [|done].
    eexists. split; [done | apply nonempty_lines_one_line].
  - pose proof (ConfigHelper_read_total (u ".connections[].pac_hosts[]") [] s) as Ht.
    destruct (ConfigHelper_read _ _ s) as [[out|e] s1]; [|done].
    eexists. split; [done | apply nonempty_lines_one_line].
  - intros H. by rewrite !config_missing_read.
Qed.

Lemma config_lists_one_line_witness :
  (ConfigHelper_get_connection_tags
     (boot (sample_host (always [] 0) mkdirs_ok))).1 = Ok [] /\
  (ConfigHelper_get_connection_tags
     (mk_sys (Build_Host (always [] 0) (fun _ _ => false) (fun _ _ => false)
                (fun _ _ => None) (fun _ _ _ => None) (fun p => p)
                None [] None None) 0 new_app)).1 = Ok [].
Proof.
  split; [reflexivity|].
  apply (proj2 (proj2 (config_lists_one_line
           (mk_sys (Build_Host (always [] 0) (fun _ _ => false) (fun _ _ => false)
                      (fun _ _ => None) (fun _ _ _ => None) (fun p => p)
                      None [] None None) 0 new_app)))).
  reflexivity.
Defined.

(** X5. The forwards read from the configuration: the call never
    raises, every label is non-empty, on one line and different from the
    label of an empty forward, and without a configuration file the list
    is empty. *)
Theorem config_forwards_labelled (s : Sys) :
  (exists fs, (ConfigHelper_get_local_forwards s).1 = Ok fs /\
              Forall (fun l => one_line l /\ l <> empty_forward) fs) /\
  (exists fs, (ConfigHelper_get_remote_forwards s).1 = Ok fs /\
              Forall (fun l => one_line l /\ l <> empty_forward) fs) /\
  (h_exists (host s) (clock s) (CONFIG_PATH (host s)) = false ->
     (ConfigHelper_get_local_forwards s).1 = Ok [] /\
     (ConfigHelper_get_remote_forwards s).1 = Ok []).
Proof.
  unfold ConfigHelper_get_local_forwards, ConfigHelper_get_remote_forwards. munfold.
  split; [|split].
  - pose proof (ConfigHelper_read_total (forwards_query (u "local")) [] s) as Ht.
    destruct (ConfigHelper_read _ _ s) as [[out|e] s1]; [|done].
    eexists. split; [done | apply forward_lines_one_line].
  - pose proof (ConfigHelper_read_total (forwards_query (u "remote")) [] s) as Ht.
    destruct (ConfigHelper_read _ _ s) as [[out|e] s1]; [|done].
    eexists. split; [done | apply forward_lines_one_line].
  - intros H. by rewrite !config_missing_read.
Qed.

Example splitlines_sample :
  splitlines (u "a" ++ [13; 10]%N ++ u "b" ++ [10; 10]%N ++ u "c" ++ [10]%N)
  = [u "a"; u "b"; []; u "c"].
Proof. reflexivity. Qed.

Example forward_lines_sample :
  forward_lines (u "web (8080 " ++ [8594%N] ++ u " 80)" ++ [10%N] ++ empty_forward)
  = [u "web (8080 " ++ [8594%N] ++ u " 80)"].
Proof. vm_compute. reflexivity. Qed.

Lemma config_forwards_labelled_witness :
  (ConfigHelper_get_local_forwards
     (mk_sys (Build_Host (always [] 0) (fun _ _ => false) (fun _ _ => false)
                (fun _ _ => None) (fun _ _ _ => None) (fun p => p)
                None [] None None) 0 new_app)).1 = Ok [].
Proof.
  apply (proj2 (proj2 (config_forwards_labelled
           (mk_sys (Build_Host (always [] 0) (fun _ _ => false) (fun _ _ => false)
                      (fun _ _ => None) (fun _ _ _ => None) (fun p => p)
                      None [] None None) 0 new_app)))).
  reflexivity.
Defined.

(* ===================================================================== *)
(** * The application configuration *)
(* ===================================================================== *)

Lemma LogoStyle_lookup_value (l : LogoStyle) :
  LogoStyle_lookup (LogoStyle_value l) = Some l.
Proof. by destruct l. Qed.

Lemma LogoStyle_lookup_Some (name : pystr) (l : LogoStyle) :
  LogoStyle_lookup name = Some l -> name = LogoStyle_value l.
Proof.
  unfold LogoStyle_lookup, LogoStyle_members, str_eqb. simpl.
  repeat case_bool_decide; simpl; intros [= <-]; done.
Qed.

(** Two different dict keys of the source. *)
Ltac key_ne := let E := fresh in intros E; vm_compute in E; discriminate E.

Section AppConfig.
Context (db : UnicodeDB).

(** The dict [load_app_config] builds from the four values read. *)
Definition app_config (pac : pystr) (stop eph : bool) (logo : pystr)
  : gmap pystr cfgval :=
  <[u "pac_server_port" := VStr pac]>
    (<[u "stop_on_quit" := VBool stop]>
       (<[u "ephemeral_ports" := VBool eph]>
          (<[u "logo_style" := VStr logo]> ∅))).

Lemma app_config_logo pac stop eph logo :
  app_config pac stop eph logo !! u "logo_style" = Some (VStr logo).
Proof.
  unfold app_config.
  rewrite !lookup_insert_ne by key_ne. apply lookup_insert_eq.
Qed.

Lemma load_app_config_shape (s : Sys) :
  upper db (u "COLORED_GLASSES") = u "COLORED_GLASSES" ->
  exists pac stop eph l,
    (ConfigHelper_load_app_config db s).1
      = Ok (app_config pac stop eph (LogoStyle_value l)).
Proof.
  intros Hup. unfold ConfigHelper_load_app_config. munfold.
  repeat match goal with
         | |- context [ConfigHelper_read ?q ?d ?s0] =>
             let H := fresh in
             pose proof (ConfigHelper_read_total q d s0) as H;
             destruct (ConfigHelper_read q d s0) as [[?|?] ?]; simpl in H; [|done]
         end.
  simpl.
  match goal with
  | |- context [LogoStyle_lookup (upper db ?raw)] =>
      destruct (LogoStyle_lookup (upper db raw)) as [l|] eqn:E
  end.
  - apply LogoStyle_lookup_Some in E. rewrite E. by eexists _, _, _, l.
  - change (LogoStyle_value DEFAULT_LOGO_STYLE) with (u "COLORED_GLASSES").
    rewrite Hup. by eexists _, _, _, COLORED_GLASSES.
Qed.

(** X6. Whatever the configuration file holds, [load_app_config]
    returns without raising a dict with the four settings of their
    types, and its logo style is the name of a member of [LogoStyle]:
    with that dict as [config], [_current_logo_style] returns the member
    and cannot raise [KeyError]. *)
Theorem load_app_config_valid (s : Sys) :
  upper db (u "COLORED_GLASSES") = u "COLORED_GLASSES" ->
  exists cfg pac stop eph l,
    (ConfigHelper_load_app_config db s).1 = Ok cfg /\
    cfg !! u "pac_server_port" = Some (VStr pac) /\
    cfg !! u "stop_on_quit" = Some (VBool stop) /\
    cfg !! u "ephemeral_ports" = Some (VBool eph) /\
    cfg !! u "logo_style" = Some (VStr (LogoStyle_value l)) /\
    (forall s', config (app s') = cfg -> (_current_logo_style s').1 = Ok l).
Proof.
  intros Hup. destruct (load_app_config_shape s Hup) as (pac & stop & eph & l & H).
  exists (app_config pac stop eph (LogoStyle_value l)), pac, stop, eph, l.
  split; [done|].
  split; [apply lookup_insert_eq|].
  split; [unfold app_config; rewrite lookup_insert_ne by key_ne;
          apply lookup_insert_eq|].
  split; [unfold app_config; rewrite !lookup_insert_ne by key_ne;
          apply lookup_insert_eq|].
  split; [apply app_config_logo|].
  intros s' Hs'. unfold _current_logo_style. munfold. simpl.
  rewrite Hs', app_config_logo. simpl. by rewrite LogoStyle_lookup_value.
Qed.

(** X7. Without a configuration file the settings are the defaults: PAC
    port ['0'], stop on quit and ephemeral ports on, logo style
    COLORED_GLASSES. *)
Theorem load_app_config_defaults (s : Sys) :
  upper db (u "COLORED_GLASSES") = u "COLORED_GLASSES" ->
  (forall t, h_exists (host s) t (CONFIG_PATH (host s)) = false) ->
  (ConfigHelper_load_app_config db s).1
    = Ok (app_config (u "0") true true (u "COLORED_GLASSES")).
Proof.
  intros Hup He. unfold ConfigHelper_load_app_config. munfold.
  rewrite config_missing_read by apply He. simpl.
  change (LogoStyle_value DEFAULT_LOGO_STYLE) with (u "COLORED_GLASSES").
  rewrite Hup. simpl.
  rewrite config_missing_read by apply He. simpl.
  rewrite config_missing_read by apply He. simpl.
  rewrite config_missing_read by apply He. simpl.
  by rewrite Hup.
Qed.
End AppConfig.

(** A desktop without configuration file, script and icons. *)
Definition bare_host : Host :=
  Build_Host (always [] 0) (fun _ _ => false) (fun _ _ => false)
    (fun _ _ => None) (fun _ _ _ => None) (fun p => p) None [] None None.

Lemma load_app_config_valid_witness :
  exists cfg l,
    (ConfigHelper_load_app_config basic_db
       (boot (sample_host (always (u "gear") 0) mkdirs_ok))).1 = Ok cfg /\
    cfg !! u "logo_style" = Some (VStr (LogoStyle_value l)).
Proof.
  destruct (load_app_config_valid basic_db
              (boot (sample_host (always (u "gear") 0) mkdirs_ok)) eq_refl)
    as (cfg & pac & stop & eph & l & H1 & _ & _ & _ & H5 & _).
  by exists cfg, l.
Defined.

Lemma load_app_config_defaults_witness :
  (ConfigHelper_load_app_config basic_db (boot bare_host)).1
  = Ok (app_config (u "0") true true (u "COLORED_GLASSES")).
Proof.
  apply (load_app_config_defaults basic_db (boot bare_host)); reflexivity.
Defined.

Example load_app_config_gear :
  (ConfigHelper_load_app_config basic_db
     (boot (sample_host (always (u "gear") 0) mkdirs_ok))).1
  = Ok (app_config (u "gear") false false (u "GEAR")).
Proof. vm_compute. reflexivity. Qed.

(* ===================================================================== *)
(** * The commands of the remove dialogs *)
(* ===================================================================== *)

Section RemoveCommands.
Context (db : UnicodeDB).

(** [\d] of a [str] pattern: a character with a decimal value. *)
Definition isdecimal_cp (c : N) : bool :=
  match todecimal db c with Some _ => true | None => false end.

(** The longest run of decimal digits at the start of [s]. *)
Fixpoint take_decimal (s : pystr) : pystr :=
  match s with
  | c :: s' => if isdecimal_cp c then c :: take_decimal s' else []
  | [] => []
  end.

(** [re.search(r'\((\d+)', v)]: group 1 of the leftmost match, that is
    the digits after the first opening parenthesis that digits follow. *)
Fixpoint search_port (v : pystr) : option pystr :=
  match v with
  | [] => None
  | c :: v' =>
      if (c =? 40)%N then
        match take_decimal v' with
        | [] => search_port v'
        | ds => Some ds
        end
      else search_port v'
  end.

(** [RemoveConnectionDialog._get_command(v)] *)
Definition RemoveConnection_get_command (v : pystr) : pystr := u "rm-connection " ++ v.

(** [RemoveHostDialog._get_command(v)] *)
Definition RemoveHost_get_command (v : pystr) : pystr := u "rm " ++ v.

(** [RemoveLocalForwardDialog._get_command(v)] *)
Definition RemoveLocalForward_get_command (v : pystr) : pystr :=
  match search_port v with
  | Some port => u "rm -l " ++ port
  | None => []
  end.

(** [RemoveRemoteForwardDialog._get_command(v)] *)
Definition RemoveRemoteForward_get_command (v : pystr) : pystr :=
  match search_port v with
  | Some port => u "rm -r " ++ port
  | None => []
  end.

(** The label of a forward as [get_local_forwards] asks yq to print it:
    ["<tag> (<src> → <dst>)"]. *)
Definition forward_label (tag src dst : pystr) : pystr :=
  tag ++ u " (" ++ src ++ u " " ++ [8594%N] ++ u " " ++ dst ++ u ")".

Lemma take_decimal_digits (s : pystr) : Forall (decimal_cp db) (take_decimal s).
Proof.
  induction s as [|c s IH]; simpl; [constructor|].
  unfold isdecimal_cp. destruct (todecimal db c) as [d|] eqn:E; [|constructor].
  constructor; [|done]. unfold decimal_cp. rewrite E. by eexists.
Qed.

Lemma search_port_digits (v port : pystr) :
  search_port v = Some port -> port <> [] /\ Forall (decimal_cp db) port.
Proof.
  induction v as [|c v IH]; simpl; [done|].
  destruct (c =? 40)%N; [|done].
  pose proof (take_decimal_digits v) as Hd.
  destruct (take_decimal v) as [|d ds]; [done|]. by intros [= <-].
Qed.

Lemma take_decimal_app (ds rest : pystr) :
  Forall (decimal_cp db) ds ->
  (forall c, head rest = Some c -> ~ decimal_cp db c) ->
  take_decimal (ds ++ rest) = ds.
Proof.
  intros Hds Hrest. induction Hds as [|d ds [x Hd] _ IH]; simpl.
  - destruct rest as [|c rest]; [done|]. simpl. unfold isdecimal_cp.
    destruct (todecimal db c) eqn:E; [|done].
    destruct (Hrest c eq_refl). unfold decimal_cp. rewrite E. by eexists.
  - unfold isdecimal_cp. rewrite Hd. by rewrite IH.
Qed.

Lemma search_port_skip (tag rest : pystr) :
  ~ In 40%N tag -> search_port (tag ++ rest) = search_port rest.
Proof.
  induction tag as [|c tag IH]; intros Hin; simpl; [done|].
  destruct (N.eqb_spec c 40) as [->|_]; [destruct Hin; by left|].
  apply IH. intros H. apply Hin. by right.
Qed.

(** X8. The command of removing a forward is either empty or [rm -l]
    (local) or [rm -r] (remote) followed by a non-empty run of decimal
    digits and nothing else: no other text of the label reaches the
    command. *)
Theorem remove_forward_command_shape (v : pystr) :
  (RemoveLocalForward_get_command v = [] /\ RemoveRemoteForward_get_command v = []) \/
  (exists port,
     port <> [] /\ Forall (decimal_cp db) port /\
     RemoveLocalForward_get_command v = u "rm -l " ++ port /\
     RemoveRemoteForward_get_command v = u "rm -r " ++ port).
Proof.
  unfold RemoveLocalForward_get_command, RemoveRemoteForward_get_command.
  destruct (search_port v) as [port|] eqn:E; [right | by left].
  destruct (search_port_digits v port E). by exists port.
Qed.

(** X9. For a label in the format of the forward lists, whose tag holds
    no opening parenthesis and whose source port is a non-empty run of
    decimal digits, the command names exactly that source port. *)
Theorem remove_forward_command_label (tag src dst : pystr) :
  ~ In 40%N tag -> src <> [] -> Forall (decimal_cp db) src ->
  RemoveLocalForward_get_command (forward_label tag src dst) = u "rm -l " ++ src /\
  RemoveRemoteForward_get_command (forward_label tag src dst) = u "rm -r " ++ src.
Proof.
  intros Htag Hne Hsrc.
  assert (~ decimal_cp db 32%N) as Hsp.
  { unfold decimal_cp. rewrite (ascii_todecimal db 32) by done. by intros [? ?]. }
  assert (search_port (forward_label tag src dst) = Some src) as H.
  { unfold forward_label. rewrite (search_port_skip tag _ Htag).
    change (u " (" ++ src ++ u " " ++ [8594%N] ++ u " " ++ dst ++ u ")")
      with (32%N :: 40%N :: src ++ (32%N :: [8594%N] ++ u " " ++ dst ++ u ")")).
    cbn [search_port]. change (32 =? 40)%N with false. change (40 =? 40)%N with true.
    cbv iota. rewrite take_decimal_app; [by destruct src | done |].
    intros c [= <-]. done. }
  unfold RemoveLocalForward_get_command, RemoveRemoteForward_get_command.
  by rewrite H.
Qed.
End RemoveCommands.

Lemma remove_forward_command_label_witness :
  RemoveLocalForward_get_command basic_db (forward_label (u "web") (u "8080") (u "80"))
  = u "rm -l 8080".
Proof.
  apply (proj1 (remove_forward_command_label basic_db (u "web") (u "8080") (u "80")
                  ltac:(vm_compute; intuition discriminate)
                  ltac:(discriminate)
                  ltac:(repeat (constructor; [by eexists|]); constructor))).
Defined.

(** A tag with a parenthesised number wins over the source port. *)
Example remove_forward_command_tag_first :
  RemoveLocalForward_get_command basic_db (forward_label (u "db(5432)") (u "15432") (u "5432"))
  = u "rm -l 5432".
Proof. vm_compute. reflexivity. Qed.

(* ===================================================================== *)
(** * The hosts of the SSH configuration *)
(* ===================================================================== *)

(** The characters that the letters of [Host] match under
    [re.IGNORECASE]: the letter in both cases, and for [s] also the long
    s (code point 383). *)
Definition matches_h (c : N) : bool := ((c =? 72) || (c =? 104))%N.
Definition matches_o (c : N) : bool := ((c =? 79) || (c =? 111))%N.
Definition matches_s (c : N) : bool := ((c =? 83) || (c =? 115) || (c =? 383))%N.
Definition matches_t (c : N) : bool := ((c =? 84) || (c =? 116))%N.

(** [pattern.match(line)] for the pattern of the source (optional
    whitespace, [Host], whitespace, then the rest of the line as group
    1) with [re.IGNORECASE], on a line without line feed, which is all
    that [splitlines] yields: group 1 when the line matches. *)
Definition host_directive (line : pystr) : option pystr :=
  match lstrip line with
  | h :: o :: s :: t :: rest =>
      if matches_h h && matches_o o && matches_s s && matches_t t then
        match rest with
        | c :: _ => if isspace_cp c then Some (lstrip rest) else None
        | [] => None
        end
      else None
  | _ => None
  end.

(** [[h for h in group.split() if '*' not in h and '?' not in h]] *)
Definition plain_hosts (group : pystr) : list pystr :=
  List.filter (fun h => negb (str_in (u "*") h) && negb (str_in (u "?") h))
    (split group).

(** The body of the loop of [get_ssh_hosts] for one line. *)
Definition hosts_of_line (line : pystr) : list pystr :=
  let line := strip line in
  if negb (truthy line) || startswith (u "#") line then []
  else
    match host_directive line with
    | Some group => plain_hosts group
    | None => []
    end.

(** [get_ssh_hosts()] from the loop on: the hosts of the text of the
    file. *)
Definition ssh_hosts_of_text (text : pystr) : list pystr :=
  concat (map hosts_of_line (splitlines text)).

(** [' '.join(ws)] *)
Fixpoint join_sp (ws : list pystr) : pystr :=
  match ws with
  | [] => []
  | [w] => w
  | w :: ws' => w ++ 32%N :: join_sp ws'
  end.






Lemma lstrip_app_nonspace (x y : pystr) (c : N) :
  isspace_cp c = false -> lstrip (x ++ c :: y) = lstrip x ++ c :: y.
Proof.
  intros Hc. induction x as [|d x IH]; simpl; [by rewrite Hc|].
  by destruct (isspace_cp d).
Qed.

Lemma rstrip_app_nonspace (a b : pystr) (c : N) :
  isspace_cp c = false -> rstrip (a ++ c :: b) = a ++ c :: rstrip b.
Proof.
  intros Hc. unfold rstrip.
  rewrite rev_app_distr. simpl. rewrite <- app_assoc. simpl.
  rewrite (lstrip_app_nonspace _ _ _ Hc), rev_app_distr. simpl.
  by rewrite rev_involutive, <- app_assoc.
Qed.

Lemma split_join_sp (ws : list pystr) :
  Forall clean_word ws -> split (join_sp ws) = ws.
Proof.
  induction 1 as [|w ws Hw Hws IH]; [done|].
  destruct ws as [|w' ws'].
  - simpl. by apply split_word.
  - change (join_sp (w :: w' :: ws')) with (w ++ 32%N :: join_sp (w' :: ws')).
    unfold split at 1. rewrite split_aux_space. fold (split w).
    by rewrite (split_word w Hw), IH.
Qed.

Lemma join_sp_nonempty (ws : list pystr) :
  ws <> [] -> Forall clean_word ws -> join_sp ws <> [].
Proof.
  intros Hne Hws. destruct ws as [|w ws']; [done|].
  inversion Hws as [|? ? [Hw _] _]; subst.
  destruct w; [done|]. by destruct ws'.
Qed.

Lemma join_sp_trimmed (ws : list pystr) :
  Forall clean_word ws -> trimmed (join_sp ws).
Proof.
  induction 1 as [|w ws [Hne Hw] Hws [IHh IHl]]; [by split|].
  assert (forall c, head w = Some c -> isspace_cp c = false) as Hhead.
  { intros c Hc. destruct w as [|d w']; [done|]. injection Hc as <-. by inversion Hw. }
  destruct ws as [|w' ws'].
  - simpl. split; [done|]. intros c Hc.
    apply last_Some in Hc as [l' ->].
    apply Forall_app in Hw as [_ Hw]. by inversion Hw.
  - change (join_sp (w :: w' :: ws')) with (w ++ 32%N :: join_sp (w' :: ws')).
    split; intros c Hc.
    + apply Hhead. by destruct w.
    + apply IHl. rewrite last_app, last_cons in Hc.
      destruct (last (join_sp (w' :: ws'))) eqn:E; [done|].
      apply last_None in E. by destruct (join_sp_nonempty (w' :: ws')).
Qed.

(** X11. A line [Host a b ...] yields its names in order, patterns
    left out; a line whose keyword goes on after [Host] (such as
    [HostName]) and a comment line yield nothing. *)
Theorem hosts_of_line_cases (ws : list pystr) (c : N) (rest : pystr) :
  (ws <> [] -> Forall clean_word ws ->
     hosts_of_line (u "Host " ++ join_sp ws)
     = List.filter (fun h => negb (str_in (u "*") h) && negb (str_in (u "?") h)) ws) /\
  (isspace_cp c = false -> hosts_of_line (u "Host" ++ c :: rest) = []) /\
  hosts_of_line (u "#" ++ rest) = [].
Proof.
  split; [|split].
  - intros Hne Hws. unfold hosts_of_line. cbv zeta.
    assert (strip (u "Host " ++ join_sp ws) = u "Host " ++ join_sp ws) as ->.
    { apply strip_id. destruct (join_sp_trimmed ws Hws) as [_ Hl].
      split; [by intros c' [= <-]|].
      intros c' Hc'. apply Hl. rewrite last_app in Hc'.
      destruct (last (join_sp ws)) eqn:E; [done|].
      apply last_None in E. by destruct (join_sp_nonempty ws). }
    change (u "Host " ++ join_sp ws)
      with (72%N :: 111%N :: 115%N :: 116%N :: 32%N :: join_sp ws).
    cbn [truthy negb orb startswith N.eqb Pos.eqb andb].
    unfold host_directive. cbn [lstrip].
    change (isspace_cp 72) with false. cbv iota.
    change (matches_h 72 && matches_o 111 && matches_s 115 && matches_t 116) with true.
    cbv iota. change (isspace_cp 32) with true. cbv iota.
    cbn [lstrip]. change (isspace_cp 32) with true. cbv iota.
    rewrite (lstrip_trimmed (join_sp ws)) by apply (join_sp_trimmed ws Hws).
    unfold plain_hosts. by rewrite split_join_sp.
  - intros Hc. unfold hosts_of_line, strip. cbv zeta.
    change (u "Host" ++ c :: rest) with (72%N :: 111%N :: 115%N :: 116%N :: c :: rest).
    cbn [lstrip]. change (isspace_cp 72) with false. cbv iota.
    change (72%N :: 111%N :: 115%N :: 116%N :: c :: rest)
      with ([72; 111; 115; 116]%N ++ c :: rest).
    rewrite (rstrip_app_nonspace _ _ _ Hc). simpl.
    unfold host_directive. cbn [lstrip]. change (isspace_cp 72) with false. cbv iota.
    change (matches_h 72 && matches_o 111 && matches_s 115 && matches_t 116) with true.
    cbv iota. by rewrite Hc.
  - unfold hosts_of_line, strip. cbv zeta.
    change (u "#" ++ rest) with ([] ++ 35%N :: rest).
    rewrite (lstrip_app_nonspace [] rest 35 eq_refl).
    rewrite (rstrip_app_nonspace [] _ 35 eq_refl). simpl.
    change (startswith (u "#") (35%N :: rstrip rest)) with true. done.
Qed.

Lemma hosts_of_line_cases_witness :
  hosts_of_line (u "Host " ++ join_sp [u "build"; u "*.lab"; u "gateway"])
  = [u "build"; u "gateway"] /\
  hosts_of_line (u "Host" ++ 78%N :: u "ame 10.0.0.1") = [].
Proof.
  split.
  - rewrite (proj1 (hosts_of_line_cases [u "build"; u "*.lab"; u "gateway"] 0 [])).
    + vm_compute. reflexivity.
    + discriminate.
    + repeat (constructor; [split; [discriminate | vm_compute; repeat constructor]|]).
      constructor.
  - apply (proj1 (proj2 (hosts_of_line_cases [] 78 (u "ame 10.0.0.1")))). reflexivity.
Defined.

Example ssh_hosts_sample :
  ssh_hosts_of_text
    (u "# my hosts" ++ [10%N] ++ u "Host build *.lab" ++ [10%N]
     ++ u "  HostName 10.0.0.1" ++ [10%N] ++ [10%N] ++ u "host gateway jump?")
  = [u "build"; u "gateway"].
Proof. vm_compute. reflexivity. Qed.

(* ===================================================================== *)
(** * A command in flight and the polls *)
(* ===================================================================== *)

Section InFlight.
Context (db : UnicodeDB).

(** The worker that [_on_start] starts. *)
Definition start_cmd : invocation := mk_inv (u "start") CbAfterProxyCmd 60.

(** X12. While a start command is in flight the Start item is
    insensitive, and a poll result that repeats the committed state
    changes nothing.  A poll result that changes the state to
    STOPPED_PARTIALLY or STOPPED (exit code 2 or 3) makes the item
    sensitive again while the command is still pending, so that Start can
    be activated a second time and two start commands are pending. *)
Theorem start_in_flight (s : Sys) (out : pystr) (rc : Z) :
  let s1 := (_on_start s).2 in
  let s2 := (_on_poll_result db out rc s1).2 in
  pending (app s1) = pending (app s) ++ [start_cmd] /\
  step db EvStart s1 = None /\
  (_state (app s) = _rc_to_state rc ->
     _on_poll_result db out rc s1 = (Ok tt, s1)) /\
  (_state (app s) <> _rc_to_state rc -> rc = 2 \/ rc = 3 ->
     pending (app s2) = pending (app s) ++ [start_cmd] /\
     sensitive StartItem (trace (app s2)) = true /\
     exists s3,
       step db EvStart s2 = Some (Ok tt, s3) /\
       pending (app s3) = pending (app s) ++ [start_cmd; start_cmd]).
Proof.
  intros s1 s2.
  assert (_state (app s1) = _state (app s)) as Hst by reflexivity.
  assert (pending (app s1) = pending (app s) ++ [start_cmd]) as Hp by reflexivity.
  split; [done|]. split; [reflexivity|]. split.
  - intros H. apply apply_state_same. by rewrite Hst.
  - intros Hne Hrc.
    assert (_state (app s1) <> _rc_to_state rc) as Hne1 by (by rewrite Hst).
    destruct (apply_state_other db _ s1 Hne1) as [_ Hup].
    change (_apply_state db (_rc_to_state rc) s1).2 with s2 in Hup.
    pose proof (updated_sensitive _ s1 s2 StartItem Hup) as Hsens.
    destruct Hup as (_ & _ & _ & Hpend & _).
    assert (sensitive StartItem (trace (app s2)) = true) as Hs2.
    { rewrite Hsens. by destruct Hrc as [-> | ->]. }
    split; [by rewrite Hpend|]. split; [done|].
    unfold step. rewrite Hs2. eexists. split; [reflexivity|].
    simpl. rewrite Hpend, Hp. by rewrite <- app_assoc.
Qed.
End InFlight.

(** A desktop where susops is stopped at first and partially up from
    instant 20 on. *)
Definition partial_host : Host :=
  sample_host
    (fun t argv _ =>
       if (t <? 20)%nat then Completed (u "stopped") [] 3
       else Completed (u "partially") [] 2)
    mkdirs_ok.

(** The application on that desktop after its startup check. *)
Definition partial_checked : Sys :=
  default (boot partial_host)
    (run basic_db [EvStartupCheck] (SusOpsApp_init basic_db (boot partial_host)).2).

Lemma start_in_flight_witness :
  exists s3,
    step basic_db EvStart
      (_on_poll_result basic_db (u "partially") 2 (_on_start partial_checked).2).2
    = Some (Ok tt, s3) /\
    pending (app s3) = pending (app partial_checked) ++ [start_cmd; start_cmd].
Proof.
  destruct (start_in_flight basic_db partial_checked (u "partially") 2)
    as (_ & _ & _ & H).
  destruct H as (_ & _ & s3 & H1 & H2);
    [vm_compute; discriminate | left; reflexivity |].
  exists s3. split; [exact H1 | exact H2].
Defined.

Example start_twice_run :
  (fun s => (_state (app s), pending (app s)))
    <$> run basic_db [EvStartupCheck; EvStart; EvPollTimer; EvWorkerDone 1; EvStart]
          (SusOpsApp_init basic_db (boot partial_host)).2
  = Some (STOPPED_PARTIALLY, [start_cmd; start_cmd]).
Proof. vm_compute. reflexivity. Qed.

(* ===================================================================== *)
(** * The dialogs and the rest of the desktop *)
(* ===================================================================== *)

(** Further answers of the operating system, indexed by the same clock
    as those of [Host]. *)
Record Desktop := {
  (** [Path.read_text()] *)
  d_read_text : nat -> pystr -> Res pystr;
  (** [shutil.which(name)] *)
  d_which : nat -> pystr -> option pystr;
  (** [open(path, 'w')] and [write(content)]: the exception raised, if any *)
  d_write_text : nat -> pystr -> pystr -> option exn;
  (** [os.remove(path)]: the exception raised, if any *)
  d_remove : nat -> pystr -> option exn;
  (** [os.path.abspath(__file__)] *)
  d_script : pystr;
}.

Inductive dialog :=
| DlgSettings | DlgAddConnection | DlgAddHost | DlgAddLocalForward | DlgAddRemoteForward.

(** What happens outside the tray menu: dialogs shown and hidden, files
    written, configuration writes entered, the main loop left. *)
Inductive shell_call :=
| Confirm (title body ok_label : pystr)      (* _confirm *)
| HideDialog (d : dialog)                    (* self.hide() *)
| MainQuit                                   (* Gtk.main_quit() *)
| ConfigWrite (query : pystr)                (* ConfigHelper.write(query) entered *)
| WriteText (path content : pystr)           (* a file written *)
| Remove (path : pystr).                     (* a file removed *)

(** The callbacks that the dialogs and [_on_reset] hand to [run_async]. *)
Inductive dialog_callback :=
| DoneAddConnection | DoneAddHost | DoneAddLocalForward | DoneAddRemoteForward
| DoneReset.

(** A worker started by a dialog or by [_on_reset]. *)
Record job := mk_job {
  job_args : pystr;
  job_callback : dialog_callback;
  job_timeout : Z;
}.

Record World := mk_world {
  w_sys : Sys;
  w_desktop : Desktop;
  w_shell : list shell_call;     (* most recent call first *)
  w_jobs : list job;             (* in the order the threads were started *)
}.

Definition W (A : Type) : Type := World -> Res A * World.

Global Instance W_ret : MRet W := fun A a w => (Ok a, w).

Global Instance W_bind : MBind W := fun A B f m w =>
  match m w with
  | (Ok a, w') => f a w'
  | (Raise e, w') => (Raise e, w')
  end.

(** A computation of the application, run in the world. *)
Definition lift {A} (m : M A) : W A := fun w =>
  let '(r, s') := m (w_sys w) in
  (r, mk_world s' (w_desktop w) (w_shell w) (w_jobs w)).

(** A value or an exception that needs no state. *)
Definition of_res {A} (r : Res A) : W A := fun w => (r, w).

Definition get_desktop : W Desktop := fun w => (Ok (w_desktop w), w).

Definition shell (c : shell_call) : W unit := fun w =>
  (Ok tt, mk_world (w_sys w) (w_desktop w) (c :: w_shell w) (w_jobs w)).

(** [run_async] with a callback of a dialog; the default timeout is 30. *)
Definition run_async_job (args : pystr) (cb : dialog_callback) (timeout : Z) : W unit :=
  fun w => (Ok tt, mk_world (w_sys w) (w_desktop w) (w_shell w)
                     (w_jobs w ++ [mk_job args cb timeout])).

(** [try: body except FileNotFoundError: pass] *)
Definition ignoring_not_found (body : W unit) : W unit := fun w =>
  match body w with
  | (Raise e, w') =>
      if exn_class_eqb (exn_cls e) FileNotFoundError then (Ok tt, w') else (Raise e, w')
  | r => r
  end.

Definition read_text (path : pystr) : W pystr :=
  d ← get_desktop; t ← lift tick; of_res (d_read_text d t path).

Definition shutil_which (name : pystr) : W (option pystr) :=
  d ← get_desktop; t ← lift tick; mret (d_which d t name).

Definition write_text (path content : pystr) : W unit :=
  d ← get_desktop; t ← lift tick;
  match d_write_text d t path content with
  | None => shell (WriteText path content)
  | Some e => of_res (Raise e)
  end.

Definition os_remove (path : pystr) : W unit :=
  d ← get_desktop; t ← lift tick;
  match d_remove d t path with
  | None => shell (Remove path)
  | Some e => of_res (Raise e)
  end.

(** [_confirm(parent, title, body, ok_label)], with the answer of the
    user: [True] for the OK button. *)
Definition _confirm (title body ok_label : pystr) (answer : bool) : W bool :=
  shell (Confirm title body ok_label);; mret answer.

Section Shell.
Context (db : UnicodeDB).

(** ** Module-level functions *)

(** [get_ssh_hosts()] *)
Definition get_ssh_hosts : W (list pystr) :=
  h ← lift get_host;
  let cfg := h_expanduser h (u "~/.ssh/config") in
  cfg_exists ← lift (os_path_exists cfg);
  if negb cfg_exists then mret []
  else
    text ← read_text cfg;
    mret (ssh_hosts_of_text text).

(** An entry of [_BROWSER_DEFS]: display name, executables, chromium
    based, has proxy settings. *)
Record browser_def := mk_def {
  def_name : pystr;
  def_exes : list pystr;
  def_chromium : bool;
  def_settings : bool;
}.

Definition _BROWSER_DEFS : list browser_def :=
  [ mk_def (u "Chrome") [u "google-chrome"; u "google-chrome-stable"] true true;
    mk_def (u "Chromium") [u "chromium"; u "chromium-browser"] true true;
    mk_def (u "Brave") [u "brave-browser"; u "brave"; u "brave-browser-stable"] true true;
    mk_def (u "Vivaldi") [u "vivaldi"; u "vivaldi-stable"] true false;
    mk_def (u "Opera") [u "opera"] true false;
    mk_def (u "Edge") [u "microsoft-edge"; u "microsoft-edge-stable"] true false;
    mk_def (u "Firefox") [u "firefox"; u "firefox-bin"] false false ].

(** [_find_exe(names)] *)
Fixpoint _find_exe (names : list pystr) : W (option pystr) :=
  match names with
  | [] => mret None
  | name :: names' =>
      path ← shutil_which name;
      match path with
      | Some p => if truthy p then mret (Some p) else _find_exe names'
      | None => _find_exe names'
      end
  end.

(** A dict of [discover_browsers]: keys name, exe, chromium, settings. *)
Record browser := mk_browser {
  b_name : pystr;
  b_exe : pystr;
  b_chromium : bool;
  b_settings : bool;
}.

(** The loop of [discover_browsers] over a list of definitions. *)
Fixpoint discover_from (defs : list browser_def) : W (list browser) :=
  match defs with
  | [] => mret []
  | d :: defs' =>
      exe ← _find_exe (def_exes d);
      found ← discover_from defs';
      mret (match exe with
            | Some p => mk_browser (def_name d) p (def_chromium d) (def_settings d) :: found
            | None => found
            end)
  end.

(** [discover_browsers()] *)
Definition discover_browsers : W (list browser) := discover_from _BROWSER_DEFS.

(** ** [SusOpsApp] *)


(** [_show_restart_if_running(title, message)], with the answer the
    user gives if asked. *)
Definition _show_restart_if_running (title message : pystr) (answer : bool) : W unit :=
  a ← lift get_app;
  if negb (bool_decide (_state a = RUNNING) || bool_decide (_state a = STOPPED_PARTIALLY))
  then lift (_alert title message MsgInfo)
  else
    ok ← _confirm title (message ++ [10; 10]%N ++ u "Restart proxy to apply?")
           (u "Restart Proxy") answer;
    if (ok : bool) then lift (_on_restart db)
    else lift (_alert title message MsgInfo).

(** The text of the confirmation of [_on_reset]. *)
Definition reset_question : pystr :=
  u "This will stop SusOps and remove all of its configs." ++ [10%N]
  ++ u "You will have to reconfigure the SSH host as well as ports." ++ [10; 10]%N
  ++ u "Are you sure?".

(** [_on_reset(_)], with the answer of the user. *)
Definition _on_reset (answer : bool) : W unit :=
  ok ← _confirm (u "Reset Everything?") reset_question (u "Reset Everything") answer;
  if negb ok then mret tt
  else run_async_job (u "reset --force") DoneReset 30.

(** The lambda of [_on_reset]: [self.config.update(load_app_config())]
    and [self._poll()]. *)
Definition after_reset (out : pystr) (rc : Z) : W unit :=
  cfg ← lift (ConfigHelper_load_app_config db);
  lift (modify_app (fun a => set_config (cfg ∪ config a) a));;
  lift _poll;;
  mret tt.
End Shell.

(** ** The dialogs

    A dialog's [run] loops on [super().run()], which blocks until the
    user answers.  The user is a list of attempts: the response and what
    the widgets hold at that moment.  When the attempts are used up the
    dialog is still open.  What the dialog's own code does is embedded;
    the other sources of the main loop (the poll timer, the workers)
    are dispatched by [step] and are not part of a dialog's run. *)

Inductive response := ResponseOK | ResponseOther.

Inductive dialog_state := Closed | StillOpen.

Definition quoted (s : pystr) : pystr := [34%N] ++ s ++ [34%N].

(** The widgets of the two forward dialogs: the active text of the
    connection and bind address boxes ([None] when nothing is active)
    and the text of the entries. *)
Record forward_form := mk_forward_form {
  ff_conn : option pystr;
  ff_tag : pystr;
  ff_local_port : pystr;
  ff_remote_port : pystr;
  ff_local_addr : option pystr;
  ff_remote_addr : option pystr;
}.

(** The widgets of the settings dialog when the user answers, and the
    active ids the logo style box went through while the dialog was
    waiting for that answer (one [changed] signal each). *)
Record settings_form := mk_settings_form {
  sf_changes : list (option pystr);
  sf_launch_at_login : bool;
  sf_stop_on_quit : bool;
  sf_ephemeral : bool;
  sf_logo_style : option pystr;     (* get_active_id() *)
  sf_pac_port : pystr;
}.

Section Dialogs.
Context (db : UnicodeDB).

(** The range in the messages of the forward dialogs, with its en dash. *)
Definition port_range : pystr := u "1" ++ [8211%N] ++ u "65535".

(** The command of [AddLocalForwardDialog.run]. *)
Definition add_local_command (conn tag lport rport laddr raddr : pystr) : pystr :=
  u "-c " ++ quoted conn ++ u " add -l " ++ lport ++ u " " ++ rport ++ u " "
  ++ quoted tag ++ u " " ++ quoted laddr ++ u " " ++ quoted raddr.

(** The command of [AddRemoteForwardDialog.run]. *)
Definition add_remote_command (conn tag rport lport raddr laddr : pystr) : pystr :=
  u "-c " ++ quoted conn ++ u " add -r " ++ rport ++ u " " ++ lport ++ u " "
  ++ quoted tag ++ u " " ++ quoted raddr ++ u " " ++ quoted laddr.

(** The loop of [AddLocalForwardDialog.run]. *)
Fixpoint AddLocalForward_loop (attempts : list (response * forward_form))
  : W dialog_state :=
  match attempts with
  | [] => mret StillOpen
  | (ResponseOther, _) :: _ => shell (HideDialog DlgAddLocalForward);; mret Closed
  | (ResponseOK, f) :: rest =>
      let conn := str_or (default [] (ff_conn f)) [] in
      let tag := strip (ff_tag f) in
      let lport := strip (ff_local_port f) in
      let rport := strip (ff_remote_port f) in
      let laddr := str_or (default [] (ff_local_addr f)) [] in
      let raddr := str_or (default [] (ff_remote_addr f)) [] in
      if negb (truthy conn) then
        lift (_alert (u "No Connection") (u "Add a connection first.") MsgError);;
        AddLocalForward_loop rest
      else
        lvalid ← of_res (is_valid_port db lport);
        if negb lvalid then
          lift (_alert (u "Invalid Port") (u "Local Port must be " ++ port_range ++ u ".")
                  MsgError);;
          AddLocalForward_loop rest
        else
          rvalid ← of_res (is_valid_port db rport);
          if negb rvalid then
            lift (_alert (u "Invalid Port") (u "Remote Port must be " ++ port_range ++ u ".")
                    MsgError);;
            AddLocalForward_loop rest
          else
            shell (HideDialog DlgAddLocalForward);;
            run_async_job (add_local_command conn tag lport rport laddr raddr)
              DoneAddLocalForward 30;;
            mret Closed
  end.

(** [AddLocalForwardDialog.run()]: the connection box is refilled from
    the configuration, then the loop. *)
Definition AddLocalForward_run (attempts : list (response * forward_form))
  : W dialog_state :=
  lift ConfigHelper_get_connection_tags;;
  AddLocalForward_loop attempts.

(** The loop of [AddRemoteForwardDialog.run]. *)
Fixpoint AddRemoteForward_loop (attempts : list (response * forward_form))
  : W dialog_state :=
  match attempts with
  | [] => mret StillOpen
  | (ResponseOther, _) :: _ => shell (HideDialog DlgAddRemoteForward);; mret Closed
  | (ResponseOK, f) :: rest =>
      let conn := str_or (default [] (ff_conn f)) [] in
      let tag := strip (ff_tag f) in
      let rport := strip (ff_remote_port f) in
      let lport := strip (ff_local_port f) in
      let raddr := str_or (default [] (ff_remote_addr f)) [] in
      let laddr := str_or (default [] (ff_local_addr f)) [] in
      if negb (truthy conn) then
        lift (_alert (u "No Connection") (u "Add a connection first.") MsgError);;
        AddRemoteForward_loop rest
      else
        rvalid ← of_res (is_valid_port db rport);
        if negb rvalid then
          lift (_alert (u "Invalid Port") (u "Remote Port must be " ++ port_range ++ u ".")
                  MsgError);;
          AddRemoteForward_loop rest
        else
          lvalid ← of_res (is_valid_port db lport);
          if negb lvalid then
            lift (_alert (u "Invalid Port") (u "Local Port must be " ++ port_range ++ u ".")
                    MsgError);;
            AddRemoteForward_loop rest
          else
            shell (HideDialog DlgAddRemoteForward);;
            run_async_job (add_remote_command conn tag rport lport raddr laddr)
              DoneAddRemoteForward 30;;
            mret Closed
  end.

(** [AddRemoteForwardDialog.run()] *)
Definition AddRemoteForward_run (attempts : list (response * forward_form))
  : W dialog_state :=
  lift ConfigHelper_get_connection_tags;;
  AddRemoteForward_loop attempts.

(** [ConfigHelper.write(query)], its entry noted in the world. *)
Definition config_write (query : pystr) : W bool :=
  shell (ConfigWrite query);;
  lift (ConfigHelper_write query).

Definition AUTOSTART_DIR (h : Host) : pystr := h_expanduser h (u "~/.config/autostart").

Definition AUTOSTART_FILE (h : Host) : pystr :=
  path_join (AUTOSTART_DIR h) [u "org.susops.App.desktop"].

(** The desktop entry written by [_apply_autostart]. *)
Definition autostart_entry (script : pystr) : pystr :=
  u "[Desktop Entry]" ++ [10%N] ++ u "Name=SusOps" ++ [10%N]
  ++ u "Exec=python3 " ++ script ++ [10%N]
  ++ u "Icon=org.susops.App" ++ [10%N] ++ u "Type=Application" ++ [10%N]
  ++ u "X-GNOME-Autostart-enabled=true" ++ [10%N].

(** [SettingsDialog._apply_autostart(enable)] *)
Definition _apply_autostart (enable : bool) : W unit :=
  h ← lift get_host;
  d ← get_desktop;
  if enable then
    lift (os_makedirs (AUTOSTART_DIR h));;
    write_text (AUTOSTART_FILE h) (autostart_entry (d_script d))
  else ignoring_not_found (os_remove (AUTOSTART_FILE h)).

(** The four queries written when the settings are saved. *)
Definition settings_queries (f : settings_form) : list pystr :=
  let pac := str_or (strip (sf_pac_port f)) (u "0") in
  let stop := if sf_stop_on_quit f then u "1" else u "0" in
  let eph := if sf_ephemeral f then u "1" else u "0" in
  let logo := str_or (default [] (sf_logo_style f)) (LogoStyle_value DEFAULT_LOGO_STYLE) in
  [ u ".pac_server_port = " ++ pac;
    u ".susops_app.stop_on_quit = " ++ quoted stop;
    u ".susops_app.ephemeral_ports = " ++ quoted eph;
    u ".susops_app.logo_style = " ++ quoted logo ].

(** [SettingsDialog._on_logo_style_changed(combo)], with the active id
    of the box: the live preview. *)
Definition _on_logo_style_changed (style_id : option pystr) : M unit :=
  match style_id with
  | Some id =>
      if truthy id then
        match LogoStyle_lookup id with
        | Some _ =>
            modify_app (fun a => set_config (<[u "logo_style" := VStr id]> (config a)) a);;
            a ← get_app;
            _update_tray_icon db (_state a)
        | None => mret tt
        end
      else mret tt
  | None => mret tt
  end.

(** The signals of the logo style box handled while [super().run()]
    waits. *)
Fixpoint previews (ids : list (option pystr)) : M unit :=
  match ids with
  | [] => mret tt
  | id :: ids' => _on_logo_style_changed id;; previews ids'
  end.

(** [SettingsDialog.run()]: [True] when the settings were saved. *)
Fixpoint SettingsDialog_run (attempts : list (response * settings_form))
  : W (option bool) :=
  match attempts with
  | [] => mret None
  | (ResponseOther, f) :: _ =>
      lift (previews (sf_changes f));;
      cfg ← lift (ConfigHelper_load_app_config db);
      lift (modify_app (set_config cfg));;
      a ← lift get_app;
      lift (_update_tray_icon db (_state a));;
      shell (HideDialog DlgSettings);;
      mret (Some false)
  | (ResponseOK, f) :: rest =>
      lift (previews (sf_changes f));;
      let pac := str_or (strip (sf_pac_port f)) (u "0") in
      invalid ← (if negb (str_eqb pac (u "0"))
                 then valid ← of_res (is_valid_port db pac); mret (negb valid)
                 else mret false);
      if (invalid : bool) then
        lift (_alert (u "Invalid Port")
                (u "PAC Server Port must be between 1 and 65535.") MsgInfo);;
        SettingsDialog_run rest
      else
        config_write (u ".pac_server_port = " ++ pac);;
        let stop := if sf_stop_on_quit f then u "1" else u "0" in
        config_write (u ".susops_app.stop_on_quit = " ++ quoted stop);;
        let eph := if sf_ephemeral f then u "1" else u "0" in
        config_write (u ".susops_app.ephemeral_ports = " ++ quoted eph);;
        let logo := str_or (default [] (sf_logo_style f))
                      (LogoStyle_value DEFAULT_LOGO_STYLE) in
        config_write (u ".susops_app.logo_style = " ++ quoted logo);;
        _apply_autostart (sf_launch_at_login f);;
        shell (HideDialog DlgSettings);;
        mret (Some true)
  end.
End Dialogs.

(** ** Reasoning in the world *)

Ltac wunfold :=
  unfold mbind, W_bind, mret, W_ret, lift, of_res, shell, run_async_job,
    get_desktop, _confirm in *.

Lemma lift_eq {A} (m : M A) (w : World) :
  lift m w = ((m (w_sys w)).1,
              mk_world (m (w_sys w)).2 (w_desktop w) (w_shell w) (w_jobs w)).
Proof. unfold lift. by destruct (m (w_sys w)). Qed.

(** A sample desktop: no file can be read, nothing is on the search
    path, files can be written and removed. *)
Definition sample_desktop (text : Res pystr) (which : pystr -> option pystr) : Desktop :=
  {| d_read_text := fun _ _ => text;
     d_which := fun _ name => which name;
     d_write_text := fun _ _ _ => None;
     d_remove := fun _ _ => None;
     d_script := u "/usr/lib/susops/susops_tray.py" |}.

Definition world_of (s : Sys) (d : Desktop) : World := mk_world s d [] [].

Section ShellProperties.
Context (db : UnicodeDB).


Lemma find_exe_truthy (names : list pystr) : forall w,
  exists r w', _find_exe names w = (Ok r, w') /\
    w_desktop w' = w_desktop w /\
    match r with
    | Some p => p <> [] /\ exists name t, In name names /\ d_which (w_desktop w) t name = Some p
    | None => True
    end.
Proof.
  induction names as [|name names IH]; intros w; simpl.
  - by exists None, w.
  - unfold shutil_which. wunfold. unfold tick. simpl.
    set (w1 := mk_world _ _ _ _).
    destruct (d_which (w_desktop w) (clock (w_sys w)) name) as [p|] eqn:E.
    + destruct (truthy p) eqn:Hp.
      * exists (Some p), w1. split; [done|]. split; [done|].
        split; [by destruct p|]. exists name, (clock (w_sys w)). by split; [left|].
      * destruct (IH w1) as (r & w' & -> & Hd & Hr). exists r, w'.
        split; [done|]. split; [done|]. destruct r as [q|]; [|done].
        destruct Hr as (Hq & n & t & Hin & Hw). split; [done|].
        exists n, t. by split; [right|].
    + destruct (IH w1) as (r & w' & -> & Hd & Hr). exists r, w'.
      split; [done|]. split; [done|]. destruct r as [q|]; [|done].
      destruct Hr as (Hq & n & t & Hin & Hw). split; [done|].
      exists n, t. by split; [right|].
Qed.

(** What a dict of [discover_browsers] says about a definition. *)
Definition found_from (d : Desktop) (b : browser) (def : browser_def) : Prop :=
  b_name b = def_name def /\
  b_chromium b = def_chromium def /\
  b_settings b = def_settings def /\
  b_exe b <> [] /\
  exists name t, In name (def_exes def) /\ d_which d t name = Some (b_exe b).

Lemma discover_from_spec (defs : list browser_def) : forall w,
  exists bs w', discover_from defs w = (Ok bs, w') /\
    w_desktop w' = w_desktop w /\
    sublist (map b_name bs) (map def_name defs) /\
    Forall (fun b => exists def, In def defs /\ found_from (w_desktop w) b def) bs.
Proof.
  induction defs as [|d defs IH]; intros w; simpl.
  - exists [], w. repeat split; constructor.
  - wunfold.
    destruct (find_exe_truthy (def_exes d) w) as (r & w1 & -> & Hd1 & Hr).
    destruct (IH w1) as (bs & w' & -> & Hd & Hsub & HF).
    rewrite Hd1 in *.
    assert (Forall (fun b => exists def, In def (d :: defs) /\
                                         found_from (w_desktop w) b def) bs) as HF'.
    { eapply Forall_impl; [exact HF|]. intros b (def & Hin & Hb).
      exists def. by split; [right|]. }
    destruct r as [p|].
    + eexists _, w'. split; [done|]. split; [done|]. split.
      * simpl. by apply sublist_skip.
      * constructor; [|done]. exists d. split; [by left|].
        destruct Hr as (Hp & name & t & Hin & Hw). by repeat split; eauto.
    + exists bs, w'. split; [done|]. split; [done|]. split; [|done].
      simpl. by apply sublist_cons.
Qed.

(** X13. [discover_browsers] never raises; the browsers it reports
    appear in the order of the table, each at most once, with the flags
    of their table entry and with a non-empty path that [shutil.which]
    returned for one of the entry's executables. *)
Theorem discover_browsers_spec (w : World) :
  exists bs,
    (discover_browsers w).1 = Ok bs /\
    sublist (map b_name bs) (map def_name _BROWSER_DEFS) /\
    NoDup (map b_name bs) /\
    Forall (fun b => exists def, In def _BROWSER_DEFS /\
                                 found_from (w_desktop w) b def) bs.
Proof.
  destruct (discover_from_spec _BROWSER_DEFS w) as (bs & w' & H & _ & Hsub & HF).
  exists bs. unfold discover_browsers. rewrite H. split; [done|]. split; [done|].
  split; [|done].
  refine (sublist_NoDup _ _ _ Hsub).
  apply (bool_decide_unpack _). by vm_compute.
Qed.
End ShellProperties.

Example discover_browsers_sample :
  (discover_browsers
     (world_of (boot bare_host)
        (sample_desktop (Ok [])
           (fun name =>
              if bool_decide (name = u "chromium-browser") then Some (u "/usr/bin/chromium-browser")
              else if bool_decide (name = u "firefox") then Some (u "/usr/bin/firefox")
              else None)))).1
  = Ok [ mk_browser (u "Chromium") (u "/usr/bin/chromium-browser") true true;
         mk_browser (u "Firefox") (u "/usr/bin/firefox") false false ].
Proof. vm_compute. reflexivity. Qed.


Example get_ssh_hosts_sample :
  (get_ssh_hosts
     (world_of (boot (sample_host (always [] 0) mkdirs_ok))
        (sample_desktop (Ok (u "Host build *.lab" ++ [10%N] ++ u "HostName x")) (fun _ => None)))).1
  = Ok [u "build"].
Proof. vm_compute. reflexivity. Qed.

(** ** Leaving, restarting after a change, resetting *)

Definition is_alert (c : call) : bool :=
  match c with Alert _ _ _ => true | _ => false end.

(** The worker that [_on_restart] starts. *)
Definition restart_cmd : invocation := mk_inv (u "restart") CbAfterProxyCmd 60.

(** The worker that [_on_reset] starts. *)
Definition reset_job : job := mk_job (u "reset --force") DoneReset 30.

Section ShellController.
Context (db : UnicodeDB).

Lemma load_app_config_ok (s : Sys) :
  exists cfg s1,
    ConfigHelper_load_app_config db s = (Ok cfg, s1) /\
    host s1 = host s /\ app s1 = app s.
Proof.
  destruct (ConfigHelper_load_app_config_frames db s) as [Hh Ha].
  destruct (ConfigHelper_load_app_config db s) as [[cfg|e] s1] eqn:E; simpl in *.
  - by exists cfg, s1.
  - exfalso. revert E. unfold ConfigHelper_load_app_config. munfold.
    repeat match goal with
           | |- context [ConfigHelper_read ?q ?d ?s0] =>
               let H := fresh in
               pose proof (ConfigHelper_read_total q d s0) as H;
               destruct (ConfigHelper_read q d s0) as [[?|?] ?]; simpl in H; [|done]
           end.
    done.
Qed.

Lemma on_restart_eq (s : Sys) :
  exists cfg s1,
    ConfigHelper_load_app_config db s = (Ok cfg, s1) /\
    _on_restart db s =
      (Ok tt,
       mk_sys (host s1) (clock s1)
         (mk_app (_state (app s)) cfg
            (SetMarkup (progress_markup (u "restarting"))
               :: SetSensitive RestartItem false :: trace (app s))
            (pending (app s) ++ [restart_cmd])
            (startup_source (app s)))).
Proof.
  destruct (load_app_config_ok s) as (cfg & s1 & E & Hh & Ha).
  exists cfg, s1. split; [done|].
  unfold _on_restart, run_async. munfold. rewrite E. simpl. by rewrite Ha.
Qed.


(** X15. After a change that needs a restart exactly one of two things
    happens: a restart command is queued, or the message is shown in an
    information dialog.  The restart happens exactly when the state is
    RUNNING or STOPPED_PARTIALLY and the user confirms, and only then is
    the user asked at all. *)
Theorem show_restart_if_running_spec (title message : pystr) (answer : bool)
    (w : World) :
  let w' := (_show_restart_if_running db title message answer w).2 in
  let a := app (w_sys w) in
  let a' := app (w_sys w') in
  let up := bool_decide (_state a = RUNNING)
            || bool_decide (_state a = STOPPED_PARTIALLY) in
  (_show_restart_if_running db title message answer w).1 = Ok tt /\
  pending a' = pending a ++ (if up && answer then [restart_cmd] else []) /\
  count_calls is_alert (trace a')
    = (count_calls is_alert (trace a) + if up && answer then 0 else 1)%nat /\
  (if up && answer then True
   else trace a' = Alert title message MsgInfo :: trace a) /\
  length (w_shell w') = (length (w_shell w) + if up then 1 else 0)%nat.
Proof.
  unfold _show_restart_if_running. wunfold. unfold get_app, _alert. munfold. simpl.
  destruct (bool_decide (_state (app (w_sys w)) = RUNNING)
            || bool_decide (_state (app (w_sys w)) = STOPPED_PARTIALLY)); simpl.
  - destruct answer; simpl.
    + destruct (on_restart_eq (w_sys w)) as (cfg & s1 & _ & ->). simpl.
      repeat split; lia.
    + rewrite app_nil_r. repeat split; lia.
  - rewrite app_nil_r. repeat split; lia.
Qed.

(** X16. Resetting: when the user declines, nothing is started; when
    the user confirms, exactly one [reset --force] command is started.
    When that command has finished, whatever its output and exit code,
    the configuration is reloaded over the old one and exactly one
    status query is issued; the committed state and the widgets are left
    alone, and no dialog reports a failure. *)
Theorem on_reset_spec (answer : bool) (out : pystr) (rc : Z) (w : World) :
  ((_on_reset answer w).1 = Ok tt /\
   w_sys (_on_reset answer w).2 = w_sys w /\
   w_jobs (_on_reset answer w).2 = w_jobs w ++ (if answer then [reset_job] else [])) /\
  (let w' := (after_reset db out rc w).2 in
   (after_reset db out rc w).1 = Ok tt /\
   (exists cfg, (ConfigHelper_load_app_config db (w_sys w)).1 = Ok cfg /\
                config (app (w_sys w')) = cfg ∪ config (app (w_sys w))) /\
   pending (app (w_sys w')) = pending (app (w_sys w)) ++ [ps_poll] /\
   _state (app (w_sys w')) = _state (app (w_sys w)) /\
   trace (app (w_sys w')) = trace (app (w_sys w)) /\
   w_jobs w' = w_jobs w /\ w_shell w' = w_shell w).
Proof.
  split.
  - unfold _on_reset. wunfold. destruct answer; simpl; [done|].
    by rewrite app_nil_r.
  - unfold after_reset. wunfold.
    destruct (load_app_config_ok (w_sys w)) as (cfg & s1 & E & Hh & Ha).
    rewrite E. simpl. rewrite Ha.
    split; [done|]. split; [by exists cfg|]. done.
Qed.
End ShellController.

Lemma show_restart_if_running_witness :
  let w := world_of (boot (sample_host (always [] 0) mkdirs_ok))
             (sample_desktop (Ok []) (fun _ => None)) in
  trace (app (w_sys (_show_restart_if_running basic_db (u "Settings Saved")
                       (u "Settings will be applied on next proxy start.") true w).2))
  = [Alert (u "Settings Saved") (u "Settings will be applied on next proxy start.") MsgInfo].
Proof.
  intros w.
  destruct (show_restart_if_running_spec basic_db (u "Settings Saved")
              (u "Settings will be applied on next proxy start.") true w)
    as (_ & _ & _ & H & _).
  exact H.
Defined.

(** ** What the dialogs let through *)

(** The queries of the configuration writes entered, oldest first. *)
Fixpoint config_writes (sh : list shell_call) : list pystr :=
  match sh with
  | [] => []
  | ConfigWrite q :: sh' => config_writes sh' ++ [q]
  | _ :: sh' => config_writes sh'
  end.

Section DialogProperties.
Context (db : UnicodeDB).

(** The form passes the checks of the forward dialogs. *)
Definition forward_ok (f : forward_form) : Prop :=
  default [] (ff_conn f) <> [] /\
  is_valid_port db (strip (ff_local_port f)) = Ok true /\
  is_valid_port db (strip (ff_remote_port f)) = Ok true.

(** The job of [AddLocalForwardDialog.run] for a form. *)
Definition local_forward_job (f : forward_form) : job :=
  mk_job (add_local_command (default [] (ff_conn f)) (strip (ff_tag f))
            (strip (ff_local_port f)) (strip (ff_remote_port f))
            (default [] (ff_local_addr f)) (default [] (ff_remote_addr f)))
    DoneAddLocalForward 30.

(** The job of [AddRemoteForwardDialog.run] for a form. *)
Definition remote_forward_job (f : forward_form) : job :=
  mk_job (add_remote_command (default [] (ff_conn f)) (strip (ff_tag f))
            (strip (ff_remote_port f)) (strip (ff_local_port f))
            (default [] (ff_remote_addr f)) (default [] (ff_local_addr f)))
    DoneAddRemoteForward 30.

Lemma str_or_nil (s : pystr) : str_or s [] = s.
Proof. by destruct s. Qed.

Lemma AddLocalForward_loop_gate (attempts : list (response * forward_form)) :
  forall w,
    let r := AddLocalForward_loop db attempts w in
    w_jobs r.2 = w_jobs w \/
    exists f, In (ResponseOK, f) attempts /\ forward_ok f /\
              r.1 = Ok Closed /\ w_jobs r.2 = w_jobs w ++ [local_forward_job f].
Proof.
  induction attempts as [|[resp f] rest IH]; intros w; simpl; [by left|].
  destruct resp; [|by left].
  rewrite !str_or_nil.
  destruct (default [] (ff_conn f)) as [|c conn] eqn:Ec; simpl.
  { wunfold. unfold _alert. munfold. simpl.
    match goal with |- context [AddLocalForward_loop db rest ?w0] =>
      destruct (IH w0) as [H|(f' & Hin & Hok & H1 & H2)] end; [by left|].
    right. exists f'. by split; [right|]. }
  wunfold.
  destruct (is_valid_port db (strip (ff_local_port f))) as [[|]|e] eqn:El; simpl;
    [| |by left].
  2:{ unfold _alert. munfold. simpl.
      match goal with |- context [AddLocalForward_loop db rest ?w0] =>
        destruct (IH w0) as [H|(f' & Hin & Hok & H1 & H2)] end; [by left|].
      right. exists f'. by split; [right|]. }
  destruct (is_valid_port db (strip (ff_remote_port f))) as [[|]|e] eqn:Er; simpl;
    [| |by left].
  2:{ unfold _alert. munfold. simpl.
      match goal with |- context [AddLocalForward_loop db rest ?w0] =>
        destruct (IH w0) as [H|(f' & Hin & Hok & H1 & H2)] end; [by left|].
      right. exists f'. by split; [right|]. }
  right. exists f. split; [by left|]. split.
  - unfold forward_ok. rewrite Ec. by repeat split.
  - split; [done|]. unfold local_forward_job. by rewrite Ec.
Qed.

Lemma AddRemoteForward_loop_gate (attempts : list (response * forward_form)) :
  forall w,
    let r := AddRemoteForward_loop db attempts w in
    w_jobs r.2 = w_jobs w \/
    exists f, In (ResponseOK, f) attempts /\ forward_ok f /\
              r.1 = Ok Closed /\ w_jobs r.2 = w_jobs w ++ [remote_forward_job f].
Proof.
  induction attempts as [|[resp f] rest IH]; intros w; simpl; [by left|].
  destruct resp; [|by left].
  rewrite !str_or_nil.
  destruct (default [] (ff_conn f)) as [|c conn] eqn:Ec; simpl.
  { wunfold. unfold _alert. munfold. simpl.
    match goal with |- context [AddRemoteForward_loop db rest ?w0] =>
      destruct (IH w0) as [H|(f' & Hin & Hok & H1 & H2)] end; [by left|].
    right. exists f'. by split; [right|]. }
  wunfold.
  destruct (is_valid_port db (strip (ff_remote_port f))) as [[|]|e] eqn:Er; simpl;
    [| |by left].
  2:{ unfold _alert. munfold. simpl.
      match goal with |- context [AddRemoteForward_loop db rest ?w0] =>
        destruct (IH w0) as [H|(f' & Hin & Hok & H1 & H2)] end; [by left|].
      right. exists f'. by split; [right|]. }
  destruct (is_valid_port db (strip (ff_local_port f))) as [[|]|e] eqn:El; simpl;
    [| |by left].
  2:{ unfold _alert. munfold. simpl.
      match goal with |- context [AddRemoteForward_loop db rest ?w0] =>
        destruct (IH w0) as [H|(f' & Hin & Hok & H1 & H2)] end; [by left|].
      right. exists f'. by split; [right|]. }
  right. exists f. split; [by left|]. split.
  - unfold forward_ok. rewrite Ec. by repeat split.
  - split; [done|]. unfold remote_forward_job. by rewrite Ec.
Qed.

Lemma get_connection_tags_jobs (w : World) :
  exists tags w1,
    lift ConfigHelper_get_connection_tags w = (Ok tags, w1) /\ w_jobs w1 = w_jobs w.
Proof.
  rewrite lift_eq.
  destruct (config_lists_one_line (w_sys w)) as [(tags & -> & _) _].
  by eexists _, _.
Qed.

(** X17. However the user fills in and answers the forward dialogs, a
    run starts at most one command, and only for a form that has a
    connection and two valid ports; the command is the one formatted
    from that form, and the dialog is closed when it is started. *)
Theorem forward_dialogs_gate (attempts : list (response * forward_form)) (w : World) :
  (let r := AddLocalForward_run db attempts w in
   w_jobs r.2 = w_jobs w \/
   exists f, In (ResponseOK, f) attempts /\ forward_ok f /\
             r.1 = Ok Closed /\ w_jobs r.2 = w_jobs w ++ [local_forward_job f]) /\
  (let r := AddRemoteForward_run db attempts w in
   w_jobs r.2 = w_jobs w \/
   exists f, In (ResponseOK, f) attempts /\ forward_ok f /\
             r.1 = Ok Closed /\ w_jobs r.2 = w_jobs w ++ [remote_forward_job f]).
Proof.
  split.
  - destruct (get_connection_tags_jobs w) as (tags & w1 & Hl & Hj).
    assert (AddLocalForward_run db attempts w = AddLocalForward_loop db attempts w1) as ->.
    { unfold AddLocalForward_run, mbind, W_bind. by rewrite Hl. }
    rewrite <- Hj. apply AddLocalForward_loop_gate.
  - destruct (get_connection_tags_jobs w) as (tags & w1 & Hl & Hj).
    assert (AddRemoteForward_run db attempts w = AddRemoteForward_loop db attempts w1) as ->.
    { unfold AddRemoteForward_run, mbind, W_bind. by rewrite Hl. }
    rewrite <- Hj. apply AddRemoteForward_loop_gate.
Qed.
End DialogProperties.

Example forward_dialog_sample :
  let attempts :=
    [ (ResponseOK, mk_forward_form (Some (u "work")) (u "web") (u "80a") (u "80") None None);
      (ResponseOK, mk_forward_form (Some (u "work")) (u " web ") (u " 8080") (u "80")
                     (Some (u "localhost")) None);
      (ResponseOK, mk_forward_form (Some (u "work")) (u "again") (u "1") (u "2") None None) ] in
  let r := AddLocalForward_run basic_db attempts
             (world_of (boot (sample_host (always [] 0) mkdirs_ok))
                (sample_desktop (Ok []) (fun _ => None))) in
  r.1 = Ok Closed /\
  job_args <$> w_jobs r.2
  = [ u "-c " ++ quoted (u "work") ++ u " add -l 8080 80 " ++ quoted (u "web") ++ u " "
      ++ quoted (u "localhost") ++ u " " ++ quoted [] ] /\
  count_calls is_alert (trace (app (w_sys r.2))) = 1%nat.
Proof. vm_compute. done. Qed.

(** ** What the settings dialog writes *)

Section SettingsProperties.
Context (db : UnicodeDB).

(** The PAC port of the form passes the check of [SettingsDialog.run]. *)
Definition pac_ok (f : settings_form) : Prop :=
  let pac := str_or (strip (sf_pac_port f)) (u "0") in
  pac = u "0" \/ is_valid_port db pac = Ok true.

Lemma lift_shell {A} (m : M A) (w : World) : w_shell (lift m w).2 = w_shell w.
Proof. by rewrite lift_eq. Qed.

Lemma lift_total {A} (m : M A) (w : World) :
  total m ->
  exists a, lift m w = (Ok a, mk_world (m (w_sys w)).2 (w_desktop w) (w_shell w) (w_jobs w)).
Proof.
  intros Ht. rewrite lift_eq. specialize (Ht (w_sys w)).
  destruct (m (w_sys w)) as [[a|e] s']; simpl in *; [by exists a|done].
Qed.

Lemma on_logo_style_changed_total id : total (_on_logo_style_changed db id).
Proof.
  unfold _on_logo_style_changed.
  destruct id as [id|]; [|apply total_ret].
  destruct (truthy id); [|apply total_ret].
  destruct (LogoStyle_lookup id); [|apply total_ret].
  apply total_bind; [apply total_modify|intros _].
  apply total_bind; [apply total_get_app|intros a].
  apply update_tray_icon_total.
Qed.

Lemma previews_total ids : total (previews db ids).
Proof.
  induction ids as [|id ids IH]; simpl; [apply total_ret|].
  apply total_bind; [apply on_logo_style_changed_total|by intros _].
Qed.

Lemma W_bind_eq {A B} (m : W A) (k : A -> W B) (w : World) :
  (m ≫= k) w = match (m w).1 with
               | Ok a => k a (m w).2
               | Raise e => (Raise e, (m w).2)
               end.
Proof. unfold mbind, W_bind. by destruct (m w) as [[a|e] w']. Qed.

Lemma config_write_shell (q : pystr) (w : World) :
  w_shell (config_write q w).2 = ConfigWrite q :: w_shell w.
Proof. unfold config_write. rewrite W_bind_eq. simpl. by rewrite lift_shell. Qed.

Lemma apply_autostart_writes (enable : bool) (w : World) :
  config_writes (w_shell (_apply_autostart enable w).2) = config_writes (w_shell w).
Proof.
  unfold _apply_autostart, write_text, os_remove, ignoring_not_found, os_makedirs.
  wunfold. munfold. simpl.
  destruct enable; simpl.
  - destruct (h_makedirs _ _ _); simpl; [done|].
    by destruct (d_write_text _ _ _ _).
  - destruct (d_remove _ _ _); simpl; [|done].
    by destruct (exn_class_eqb _ _).
Qed.

(** The part of [SettingsDialog.run] after the check. *)
Definition save_settings (f : settings_form) : W (option bool) :=
  config_write (u ".pac_server_port = " ++ str_or (strip (sf_pac_port f)) (u "0"));;
  config_write (u ".susops_app.stop_on_quit = "
                ++ quoted (if sf_stop_on_quit f then u "1" else u "0"));;
  config_write (u ".susops_app.ephemeral_ports = "
                ++ quoted (if sf_ephemeral f then u "1" else u "0"));;
  config_write (u ".susops_app.logo_style = "
                ++ quoted (str_or (default [] (sf_logo_style f))
                             (LogoStyle_value DEFAULT_LOGO_STYLE)));;
  _apply_autostart (sf_launch_at_login f);;
  shell (HideDialog DlgSettings);;
  mret (Some true).

Lemma four_writes (q1 q2 q3 q4 : pystr) (enable : bool) (w : World) :
  let r := (config_write q1;; config_write q2;; config_write q3;; config_write q4;;
            _apply_autostart enable;; shell (HideDialog DlgSettings);;
            mret (Some true)) w in
  exists ws,
    config_writes (w_shell r.2) = config_writes (w_shell w) ++ ws /\
    ws <> [] /\ ws `prefix_of` [q1; q2; q3; q4] /\
    match r.1 with
    | Ok saved => saved = Some true /\ ws = [q1; q2; q3; q4]
    | Raise _ => True
    end.
Proof.
  cbv zeta.
  rewrite W_bind_eq. pose proof (config_write_shell q1 w) as S1.
  destruct (config_write q1 w) as [[b1|e1] w1]; cbn [fst snd] in *.
  2:{ exists [q1]. rewrite S1. simpl. repeat split; [done|]. by eexists. }
  rewrite W_bind_eq. pose proof (config_write_shell q2 w1) as S2.
  destruct (config_write q2 w1) as [[b2|e2] w2]; cbn [fst snd] in *.
  2:{ exists [q1; q2]. rewrite S2, S1. simpl. rewrite <- app_assoc.
      repeat split; [done|]. by eexists. }
  rewrite W_bind_eq. pose proof (config_write_shell q3 w2) as S3.
  destruct (config_write q3 w2) as [[b3|e3] w3]; cbn [fst snd] in *.
  2:{ exists [q1; q2; q3]. rewrite S3, S2, S1. simpl. rewrite <- !app_assoc.
      repeat split; [done|]. by eexists. }
  rewrite W_bind_eq. pose proof (config_write_shell q4 w3) as S4.
  destruct (config_write q4 w3) as [[b4|e4] w4]; cbn [fst snd] in *.
  2:{ exists [q1; q2; q3; q4]. rewrite S4, S3, S2, S1. simpl. rewrite <- !app_assoc.
      repeat split; [done|]. by eexists. }
  rewrite W_bind_eq. pose proof (apply_autostart_writes enable w4) as S5.
  destruct (_apply_autostart enable w4) as [[[]|e5] w5]; cbn [fst snd] in *.
  - exists [q1; q2; q3; q4]. simpl. rewrite S5, S4, S3, S2, S1. simpl.
    rewrite <- !app_assoc. repeat split; [done|]. by eexists.
  - exists [q1; q2; q3; q4]. rewrite S5, S4, S3, S2, S1. simpl. rewrite <- !app_assoc.
    repeat split; [done|]. by eexists.
Qed.

Lemma save_settings_spec (f : settings_form) (w : World) :
  let r := save_settings f w in
  exists ws,
    config_writes (w_shell r.2) = config_writes (w_shell w) ++ ws /\
    ws <> [] /\ ws `prefix_of` settings_queries f /\
    match r.1 with
    | Ok saved => saved = Some true /\ ws = settings_queries f
    | Raise _ => True
    end.
Proof.
  exact (four_writes
           (u ".pac_server_port = " ++ str_or (strip (sf_pac_port f)) (u "0"))
           (u ".susops_app.stop_on_quit = "
            ++ quoted (if sf_stop_on_quit f then u "1" else u "0"))
           (u ".susops_app.ephemeral_ports = "
            ++ quoted (if sf_ephemeral f then u "1" else u "0"))
           (u ".susops_app.logo_style = "
            ++ quoted (str_or (default [] (sf_logo_style f))
                         (LogoStyle_value DEFAULT_LOGO_STYLE)))
           (sf_launch_at_login f) w).
Qed.

Lemma SettingsDialog_run_ok (f : settings_form) (rest : list (response * settings_form)) :
  SettingsDialog_run db ((ResponseOK, f) :: rest) =
  (lift (previews db (sf_changes f));;
   invalid ← (if negb (str_eqb (str_or (strip (sf_pac_port f)) (u "0")) (u "0"))
              then valid ← of_res (is_valid_port db (str_or (strip (sf_pac_port f)) (u "0")));
                   mret (negb valid)
              else mret false);
   if (invalid : bool) then
     lift (_alert (u "Invalid Port")
             (u "PAC Server Port must be between 1 and 65535.") MsgInfo);;
     SettingsDialog_run db rest
   else save_settings f).
Proof. reflexivity. Qed.

Lemma SettingsDialog_run_other (f : settings_form) (rest : list (response * settings_form)) :
  SettingsDialog_run db ((ResponseOther, f) :: rest) =
  (lift (previews db (sf_changes f));;
   cfg ← lift (ConfigHelper_load_app_config db);
   lift (modify_app (set_config cfg));;
   a ← lift get_app;
   lift (_update_tray_icon db (_state a));;
   shell (HideDialog DlgSettings);;
   mret (Some false)).
Proof. reflexivity. Qed.

Lemma pac_check_eq (pac : pystr) (w : World) :
  (if negb (str_eqb pac (u "0"))
   then valid ← of_res (is_valid_port db pac); mret (negb valid)
   else mret false) w
  = (if str_eqb pac (u "0") then Ok false
     else match is_valid_port db pac with
          | Ok valid => Ok (negb valid)
          | Raise e => Raise e
          end, w).
Proof.
  destruct (str_eqb pac (u "0")); [done|]. cbn [negb].
  rewrite W_bind_eq. unfold of_res. cbn [fst snd].
  by destruct (is_valid_port db pac).
Qed.

(** X18. The settings dialog writes nothing unless an attempt is
    confirmed whose PAC port, stripped, is empty, [0] or a valid port.
    What it writes then are the four queries of that attempt, in their
    order; a run that returns [True] has entered all four, a run that
    returns [False] or is still open has written nothing, and a run
    that raises has entered none or an initial part of them.  The live
    previews of the logo style never write. *)
Theorem settings_dialog_gate (attempts : list (response * settings_form)) :
  forall w,
    let r := SettingsDialog_run db attempts w in
    exists ws,
      config_writes (w_shell r.2) = config_writes (w_shell w) ++ ws /\
      (ws = [] \/
       exists f, In (ResponseOK, f) attempts /\ pac_ok f /\
                 ws <> [] /\ ws `prefix_of` settings_queries f) /\
      match r.1 with
      | Ok (Some true) =>
          exists f, In (ResponseOK, f) attempts /\ pac_ok f /\ ws = settings_queries f
      | Ok _ => ws = []
      | Raise _ => True
      end.
Proof.
  induction attempts as [|[resp f] rest IH]; intros w.
  { exists []. simpl. by rewrite app_nil_r; auto. }
  assert (forall w1 : World,
             w_shell w1 = w_shell w -> pac_ok f ->
             exists ws,
               config_writes (w_shell (save_settings f w1).2)
               = config_writes (w_shell w) ++ ws /\
               (ws = [] \/
                exists f0, In (ResponseOK, f0) ((ResponseOK, f) :: rest) /\ pac_ok f0 /\
                           ws <> [] /\ ws `prefix_of` settings_queries f0) /\
               match (save_settings f w1).1 with
               | Ok (Some true) =>
                   exists f0, In (ResponseOK, f0) ((ResponseOK, f) :: rest) /\ pac_ok f0 /\
                              ws = settings_queries f0
               | Ok _ => ws = []
               | Raise _ => True
               end) as Hsave.
  { intros w1 Hw1 Hok.
    destruct (save_settings_spec f w1) as (ws & Hws & Hne & Hpre & Hres).
    exists ws. rewrite <- Hw1. split; [done|]. split.
    - right. exists f. by split; [left|].
    - destruct (save_settings f w1).1 as [saved|e]; [|done].
      destruct Hres as [-> ->]. exists f. by split; [left|]. }
  assert (forall w1 : World,
             w_shell w1 = w_shell w ->
             exists ws,
               config_writes (w_shell (SettingsDialog_run db rest w1).2)
               = config_writes (w_shell w) ++ ws /\
               (ws = [] \/
                exists f0, In (ResponseOK, f0) ((ResponseOK, f) :: rest) /\ pac_ok f0 /\
                           ws <> [] /\ ws `prefix_of` settings_queries f0) /\
               match (SettingsDialog_run db rest w1).1 with
               | Ok (Some true) =>
                   exists f0, In (ResponseOK, f0) ((ResponseOK, f) :: rest) /\ pac_ok f0 /\
                              ws = settings_queries f0
               | Ok _ => ws = []
               | Raise _ => True
               end) as Hrest.
  { intros w1 Hw1. destruct (IH w1) as (ws & Hws & Hgate & Hres).
    exists ws. rewrite <- Hw1. split; [done|]. split.
    - destruct Hgate as [->|(f0 & Hin & H)]; [by left|].
      right. exists f0. by split; [right|].
    - destruct (SettingsDialog_run db rest w1).1 as [[[|]|]|e]; try done.
      destruct Hres as (f0 & Hin & H). exists f0. by split; [right|]. }
  destruct (lift_total (previews db (sf_changes f)) w (previews_total _)) as [[] Ep].
  set (w1 := mk_world _ _ _ _) in Ep.
  destruct resp; cbv zeta.
  - rewrite SettingsDialog_run_ok. rewrite W_bind_eq, Ep. cbn [fst snd].
    rewrite W_bind_eq, pac_check_eq. cbn [fst snd].
    destruct (str_eqb (str_or (strip (sf_pac_port f)) (u "0")) (u "0")) eqn:E0.
    + apply (Hsave w1); [done|]. left. by apply bool_decide_eq_true in E0.
    + destruct (is_valid_port db (str_or (strip (sf_pac_port f)) (u "0")))
        as [[|]|e] eqn:Ev; cbn [negb].
      * apply (Hsave w1); [done|]. by right.
      * rewrite W_bind_eq.
        destruct (lift_total (_alert (u "Invalid Port")
                    (u "PAC Server Port must be between 1 and 65535.") MsgInfo) w1)
          as [[] Ea]; [apply total_do_call|].
        rewrite Ea. cbn [fst snd]. by apply Hrest.
      * exists []. rewrite app_nil_r. cbn [fst snd].
        split; [done|]. split; [by left|done].
  - rewrite SettingsDialog_run_other. rewrite W_bind_eq, Ep. cbn [fst snd].
    exists []. rewrite app_nil_r.
    unfold get_app, modify_app. wunfold.
    destruct (load_app_config_ok db (w_sys w1)) as (cfg & s1 & -> & _).
    cbn [fst snd w_sys w_shell w_desktop w_jobs].
    match goal with |- context [_update_tray_icon db ?st ?s0] =>
      pose proof (update_tray_icon_total db st s0) as Ht;
      destruct (_update_tray_icon db st s0) as [[[]|e] s2]; [|done]
    end.
    cbn [fst snd w_sys w_shell w_desktop w_jobs config_writes].
    split; [done|]. split; [by left|done].
Qed.
End SettingsProperties.

Example settings_dialog_sample :
  let attempts :=
    [ (ResponseOK, mk_settings_form [Some (u "GEAR")] false true true (Some (u "GEAR")) (u "70000"));
      (ResponseOK, mk_settings_form [] false true false (Some (u "GEAR")) (u " 8080 ")) ] in
  let r := SettingsDialog_run basic_db attempts
             (world_of (boot (sample_host (always [] 0) mkdirs_ok))
                (sample_desktop (Ok []) (fun _ => None))) in
  r.1 = Ok (Some true) /\
  config_writes (w_shell r.2)
  = [ u ".pac_server_port = 8080";
      u ".susops_app.stop_on_quit = " ++ quoted (u "1");
      u ".susops_app.ephemeral_ports = " ++ quoted (u "0");
      u ".susops_app.logo_style = " ++ quoted (u "GEAR") ] /\
  count_calls is_alert (trace (app (w_sys r.2))) = 1%nat.
Proof. vm_compute. done. Qed.
